(** * Scheduled screenshot monitor: a shallow embedding

    This development models [examples/use-cases/scheduled_screenshot_monitor.py]:
    the two pydantic records, the metadata file, and the methods of
    [ScheduledScreenshotMonitor].

    - Python [str] is [string]; a parsed JSON document is a [json] tree.
    - [pathlib.Path] follows the POSIX flavour: a root and a list of parts.
    - The collaborators the script does not implement (browser session, AI
      agent, console, clock, disk writes) are a parameter [Env] of oracles,
      indexed by the number of collaborator calls made so far. An interrupt
      or a cancellation reaches the script where it awaits a collaborator:
      the oracle of that call raises it. Constructors and [print] return.
    - Methods are computations in a state-and-exception monad [M];
      [except Exception] catches [Exception] and lets [KeyboardInterrupt]
      and other [BaseException]s through, as in Python.
    - The [while True] loop is run with fuel: [None] means the loop is
      still running when the fuel is spent. *)

From Stdlib Require Import ZArith Lia Ascii String.
From stdpp Require Import base tactics option list strings.

Set Warnings "-register-all,-abstract-large-number".

Open Scope Z_scope.
Open Scope nat_scope.

(** ** Data model (lines 43-56) *)

Record ScreenshotMetadata := {
  timestamp : string;
  block_name : string;
  screenshot_path : string;
  url : string;
}.

Record ScreenshotBlock := {
  name : string;
  selector : string;
}.

(** ** Exceptions *)

(** [Exception cls] is an instance of a subclass of [Exception];
    [BaseException cls] is any other non-[Exception] exception
    ([asyncio.CancelledError], [SystemExit]). *)
Inductive exn :=
| KeyboardInterrupt
| Exception (cls : string)
| BaseException (cls : string).

Definition is_Exception (e : exn) : bool :=
  match e with
  | Exception _ => true
  | _ => false
  end.

Inductive outcome (A : Type) :=
| Returns (a : A)
| Raises (e : exn).
Arguments Returns {A} a.
Arguments Raises {A} e.

(** ** datetime formatting (lines 239-240) *)

Record datetime := {
  year : nat;
  month : nat;
  day : nat;
  hour : nat;
  minute : nat;
  second : nat;
  microsecond : nat;
}.

Definition digit (n : nat) : ascii :=
  match n mod 10 with
  | 0 => "0" | 1 => "1" | 2 => "2" | 3 => "3" | 4 => "4"
  | 5 => "5" | 6 => "6" | 7 => "7" | 8 => "8" | _ => "9"
  end%char.

Definition pad2 (n : nat) : string :=
  String (digit (n / 10)) (String (digit n) "").

Definition pad4 (n : nat) : string :=
  String (digit (n / 1000)) (String (digit (n / 100)) (pad2 n)).

Definition pad6 (n : nat) : string :=
  String (digit (n / 1000 / 100)) (String (digit (n / 1000 / 10)) (pad4 n)).

(** [datetime.strftime('%Y%m%d_%H%M%S')], for the four-digit years
    [datetime.now()] gives. *)
Definition strftime (d : datetime) : string :=
  pad4 (year d) +:+ pad2 (month d) +:+ pad2 (day d) +:+ "_" +:+
  pad2 (hour d) +:+ pad2 (minute d) +:+ pad2 (second d).

(** [datetime.isoformat()]: the fraction is omitted when it is zero. *)
Definition isoformat (d : datetime) : string :=
  pad4 (year d) +:+ "-" +:+ pad2 (month d) +:+ "-" +:+ pad2 (day d) +:+ "T" +:+
  pad2 (hour d) +:+ ":" +:+ pad2 (minute d) +:+ ":" +:+ pad2 (second d) +:+
  (if microsecond d =? 0 then "" else "." +:+ pad6 (microsecond d)).

Definition is_digit (c : ascii) : bool :=
  (48 <=? nat_of_ascii c) && (nat_of_ascii c <=? 57).

(** The shape [YYYYMMDD_HHMMSS]: eight digits, an underscore, six digits. *)
Definition stamp_shape (s : string) : bool :=
  match list_ascii_of_string s with
  | [y1; y2; y3; y4; m1; m2; d1; d2; u; h1; h2; n1; n2; s1; s2] =>
      forallb is_digit [y1; y2; y3; y4; m1; m2; d1; d2] &&
      Ascii.eqb u "_" &&
      forallb is_digit [h1; h2; n1; n2; s1; s2]
  | _ => false
  end.

(** ** pathlib, POSIX flavour (lines 87-88, 249, 260) *)

Module Path.

(** [root] is the empty string for a relative path, and a slash (or two
    slashes) for an absolute one. *)
Record t := mk { root : string; parts : list string }.

Fixpoint split (s : string) : list string :=
  match s with
  | EmptyString => [EmptyString]
  | String c r =>
      if Ascii.eqb c "/" then EmptyString :: split r
      else match split r with
           | h :: tl => String c h :: tl
           | [] => [String c EmptyString]
           end
  end.

Definition is_part (s : string) : bool :=
  negb (String.eqb s "" || String.eqb s ".").

Definition parse_root (s : string) : string :=
  match s with
  | String "/" (String "/" (String "/" _)) => "/"
  | String "/" (String "/" _) => "//"
  | String "/" _ => "/"
  | _ => ""
  end.

(** [Path(s)] *)
Definition of_string (s : string) : t :=
  mk (parse_root s) (filter (fun p => is_part p = true) (split s)).

Definition is_absolute (p : t) : bool := negb (String.eqb (root p) "").

(** [p / s] *)
Definition truediv (p : t) (s : string) : t :=
  let q := of_string s in
  if is_absolute q then q else mk (root p) (parts p ++ parts q).

Fixpoint join (l : list string) : string :=
  match l with
  | [] => ""
  | [x] => x
  | x :: r => x +:+ "/" +:+ join r
  end.

(** [str(p)] *)
Definition str (p : t) : string :=
  match root p, parts p with
  | EmptyString, [] => "."
  | r, l => r +:+ join l
  end.

(** [p.relative_to('.')]: raises [ValueError] on an absolute path. *)
Definition relative_to_dot (p : t) : outcome t :=
  if is_absolute p then Raises (Exception "ValueError") else Returns p.

End Path.

(** ** JSON documents and the pydantic model (lines 43-49, 104-105, 115) *)

Inductive json :=
| JNull
| JBool (b : bool)
| JInt (z : Z)
| JFloat (lexeme : string)
| JStr (s : string)
| JArr (items : list json)
| JObj (members : list (string * json)).

(** A parsed object is a Python [dict]: of two members with one key the
    later one wins. *)
Fixpoint dict_get (k : string) (members : list (string * json)) : option json :=
  match members with
  | [] => None
  | (k', v) :: rest =>
      match dict_get k rest with
      | Some w => Some w
      | None => if String.eqb k k' then Some v else None
      end
  end.

Fixpoint dict_keys (members : list (string * json)) : list string :=
  match members with
  | [] => []
  | (k, _) :: rest =>
      k :: filter (fun k' => String.eqb k k' = false) (dict_keys rest)
  end.

(** [item.model_dump()] *)
Definition model_dump (m : ScreenshotMetadata) : json :=
  JObj [("timestamp", JStr (timestamp m));
        ("block_name", JStr (block_name m));
        ("screenshot_path", JStr (screenshot_path m));
        ("url", JStr (url m))].

(** A required [str] field: only a JSON string validates. *)
Definition str_field (k : string) (kwargs : list (string * json)) : option string :=
  match dict_get k kwargs with
  | Some (JStr s) => Some s
  | _ => None
  end.

(** The constructor call of line 105, with [item] unpacked as keyword
    arguments: [item] must be a mapping, the four fields must be present
    and strings, other keys are ignored. *)
Definition ScreenshotMetadata_init (item : json) : outcome ScreenshotMetadata :=
  match item with
  | JObj kwargs =>
      match str_field "timestamp" kwargs, str_field "block_name" kwargs,
            str_field "screenshot_path" kwargs, str_field "url" kwargs with
      | Some t, Some b, Some p, Some u =>
          Returns {| timestamp := t; block_name := b; screenshot_path := p; url := u |}
      | _, _, _, _ => Raises (Exception "ValidationError")
      end
  | _ => Raises (Exception "TypeError")
  end.

(** [for item in data]: a list yields its items, a dict its keys, a
    string its characters; anything else is not iterable. *)
Definition iterate (data : json) : outcome (list json) :=
  match data with
  | JArr items => Returns items
  | JObj members => Returns (map JStr (dict_keys members))
  | JStr s => Returns (map (fun c => JStr (String c "")) (list_ascii_of_string s))
  | _ => Raises (Exception "TypeError")
  end.

(** The list comprehension of line 105 over the items: the first item
    that fails to validate raises. *)
Fixpoint comprehension (items : list json) : outcome (list ScreenshotMetadata) :=
  match items with
  | [] => Returns []
  | item :: rest =>
      match ScreenshotMetadata_init item with
      | Raises e => Raises e
      | Returns m =>
          match comprehension rest with
          | Raises e => Raises e
          | Returns l => Returns (m :: l)
          end
      end
  end.

(** What a metadata file that [exists()] sees holds: a document
    [json.load] parses, or content on which [open] or [json.load] raises
    [Exception cls]. *)
Inductive file_content :=
| Unloadable (cls : string)
| Document (data : json).

(** Lines 103-105: open, [json.load], build the records. *)
Definition load_records (c : file_content) : outcome (list ScreenshotMetadata) :=
  match c with
  | Unloadable cls => Raises (Exception cls)
  | Document data =>
      match iterate data with
      | Raises e => Raises e
      | Returns items => comprehension items
      end
  end.

(** ** Collaborators and program state *)

(** How one write of the metadata file ends (lines 114-116): [open] may
    fail and leave the file as it was; [json.dump] may fail after [open]
    truncated the file, leaving [residue] behind. *)
Inductive write_outcome :=
| WriteOk
| OpenFails (cls : string)
| DumpFails (cls : string) (residue : file_content).

(** The behaviour of everything the script calls but does not implement.
    The first argument of each oracle is the number of collaborator calls
    made before this one, so that two calls may end differently.
    [agent_run] gives the argument of each [report_blocks] call the agent
    makes, in order, and how [agent.run()] ends. [path_error] is the
    [OSError] that examining the path of the metadata file raises, if any
    (a directory of the path may not be searched, a name is too long). *)
Record Env := {
  clock : nat -> datetime;
  mkdir : nat -> outcome unit;
  path_error : option string;
  file_write : nat -> write_outcome;
  browser_goto : nat -> string -> outcome unit;
  browser_get_state : nat -> outcome string;
  browser_screenshot_element : nat -> string -> string -> outcome unit;
  browser_close : nat -> outcome unit;
  asyncio_sleep : nat -> Z -> outcome unit;
  console_input : nat -> outcome string;
  agent_run : nat -> list (list ScreenshotBlock) * outcome unit;
}.

Record BrowserSession := { headless : bool }.

(** One constructor per [print] site, with the values it formats. *)
Inductive message :=
| MsgLoaded (n : nat)
| MsgCouldNotLoad (e : exn)
| MsgSaved (file : string)
| MsgSaveFailed (e : exn)
| MsgLoginBanner (target : string)
| MsgWaitingForLogin
| MsgLoginConfirmed
| MsgIdentifying
| MsgAgentError (e : exn)
| MsgIdentified (blocks : list ScreenshotBlock)
| MsgNoneIdentified
| MsgCapturing (stamp : string)
| MsgBlockOk (block file : string)
| MsgBlockFailed (block : string) (e : exn)
| MsgCycleCompleted (total : nat)
| MsgStartBannerHead (target : string)
| MsgStartBanner (target : string) (interval : Z) (dir file : string)
| MsgLoginFailed
| MsgNoBlocksExit
| MsgCycleHeader (cycle : nat)
| MsgNextIn (interval : Z)
| MsgStoppedByUser
| MsgLoopError (e : exn)
| MsgTotals (total : nat) (dir file : string).

(** What the program does to the outside, in the order it does it. *)
Inductive event :=
| Print (m : message)
| Mkdir (dir : string)
| WriteFile (file : string) (data : json)
| OpenBrowser (s : BrowserSession)
| Goto (target : string)
| GetState
| ScreenshotElement (sel file : string)
| CloseBrowser
| Sleep (seconds : Z)
| Input
| AgentRun
| ReportBlocks (params : list ScreenshotBlock).

(** The fields of [self] (lines 86-91), then the world: the number of
    collaborator calls so far, the content of the metadata file ([None]
    when [exists()] does not see a file), the class of the [OSError] that
    [exists()] raises when it sees no file because the path cannot be
    examined ([None] when it simply answers [False]), and the events so
    far, oldest first. *)
Record State := {
  target_url : string;
  screenshot_dir : Path.t;
  metadata_file : Path.t;
  interval_seconds : Z;
  browser_session : option BrowserSession;
  metadata_list : list ScreenshotMetadata;
  ticks : nat;
  disk : option file_content;
  unreachable : option string;
  trace : list event;
}.

Definition set_browser_session (b : option BrowserSession) (st : State) : State :=
  {| target_url := target_url st; screenshot_dir := screenshot_dir st;
     metadata_file := metadata_file st; interval_seconds := interval_seconds st;
     browser_session := b; metadata_list := metadata_list st;
     ticks := ticks st; disk := disk st;
     unreachable := unreachable st; trace := trace st |}.

Definition set_metadata_list (l : list ScreenshotMetadata) (st : State) : State :=
  {| target_url := target_url st; screenshot_dir := screenshot_dir st;
     metadata_file := metadata_file st; interval_seconds := interval_seconds st;
     browser_session := browser_session st; metadata_list := l;
     ticks := ticks st; disk := disk st;
     unreachable := unreachable st; trace := trace st |}.

Definition set_disk (d : option file_content) (st : State) : State :=
  {| target_url := target_url st; screenshot_dir := screenshot_dir st;
     metadata_file := metadata_file st; interval_seconds := interval_seconds st;
     browser_session := browser_session st; metadata_list := metadata_list st;
     ticks := ticks st; disk := d;
     unreachable := unreachable st; trace := trace st |}.

(** Record the event of a collaborator call and count the call. *)
Definition called (ev : event) (st : State) : State :=
  {| target_url := target_url st; screenshot_dir := screenshot_dir st;
     metadata_file := metadata_file st; interval_seconds := interval_seconds st;
     browser_session := browser_session st; metadata_list := metadata_list st;
     ticks := S (ticks st); disk := disk st;
     unreachable := unreachable st; trace := trace st ++ [ev] |}.

(** Record an event that consults no collaborator. *)
Definition emitted (ev : event) (st : State) : State :=
  {| target_url := target_url st; screenshot_dir := screenshot_dir st;
     metadata_file := metadata_file st; interval_seconds := interval_seconds st;
     browser_session := browser_session st; metadata_list := metadata_list st;
     ticks := ticks st; disk := disk st;
     unreachable := unreachable st; trace := trace st ++ [ev] |}.

Definition printed (m : message) (st : State) : State := emitted (Print m) st.

(** ** The monad of methods *)

Definition M (A : Type) : Type := State -> outcome A * State.

Definition ret {A} (a : A) : M A := fun st => (Returns a, st).

Definition raise {A} (e : exn) : M A := fun st => (Raises e, st).

Definition bind {A B} (m : M A) (k : A -> M B) : M B := fun st =>
  match m st with
  | (Returns a, st') => k a st'
  | (Raises e, st') => (Raises e, st')
  end.

Definition get : M State := fun st => (Returns st, st).

Definition modify (f : State -> State) : M unit := fun st => (Returns tt, f st).

Definition print (m : message) : M unit := modify (printed m).

(** [try: body except Exception as e: handler e] *)
Definition try_except {A} (body : M A) (handler : exn -> M A) : M A := fun st =>
  match body st with
  | (Returns a, st') => (Returns a, st')
  | (Raises e, st') => if is_Exception e then handler e st' else (Raises e, st')
  end.

(** [for x in l: body x] *)
Fixpoint for_each {A} (l : list A) (body : A -> M unit) : M unit :=
  match l with
  | [] => ret tt
  | x :: rest => bind (body x) (fun _ => for_each rest body)
  end.

Declare Scope monad_scope.
Delimit Scope monad_scope with M.
Notation "'let*' x ':=' m 'in' k" := (bind m (fun x => k))
  (at level 10, x name, m at level 100, k at level 200) : monad_scope.
Notation "m ';;' k" := (bind m (fun _ => k))
  (at level 100, k at level 200, right associativity) : monad_scope.
Open Scope monad_scope.

(** ** The methods of [ScheduledScreenshotMonitor] *)

(** Lines 221-225. *)
Definition fallback_blocks : list ScreenshotBlock :=
  [ {| name := "Chart-Canvas"; selector := "canvas" |};
    {| name := "Chart-SVG"; selector := "svg" |};
    {| name := "Dashboard-Main";
       selector := ".dashboard, .chart-container, .graph-container" |} ].

(** [_load_metadata] (lines 99-109). The [exists()] of line 101 stands
    before the [try]: where it sees no file it answers [False], or raises
    the [OSError] of a path it cannot examine. *)
Definition _load_metadata : M unit :=
  let* st := get in
  match disk st with
  | None =>
      match unreachable st with
      | Some cls => raise (Exception cls)
      | None => ret tt
      end
  | Some content =>
      try_except
        (match load_records content with
         | Raises e => raise e
         | Returns records =>
             modify (set_metadata_list records);;
             print (MsgLoaded (length records))
         end)
        (fun e =>
           print (MsgCouldNotLoad e);;
           modify (set_metadata_list []))
  end.

(** Line 293: [interval_seconds / 60] is a true division of integers. It
    raises [OverflowError] when the quotient, rounded to the nearest
    float, is beyond the largest one. *)
Definition banner_overflows (interval_seconds : Z) : bool :=
  (60 * (2 ^ 1024 - 2 ^ 970) <=? Z.abs interval_seconds)%Z.

Section Monitor.

Variable env : Env.

(** A collaborator call: the event is recorded, the call is counted,
    and the oracle says how the call ends. *)
Definition call {A} (ev : event) (oracle : nat -> outcome A) : M A := fun st =>
  (oracle (ticks st), called ev st).

(** A method call on [self.browser_session]; on [None] the attribute
    lookup raises [AttributeError]. *)
Definition on_session {A} (ev : event) (oracle : nat -> outcome A) : M A :=
  let* st := get in
  match browser_session st with
  | None => raise (Exception "AttributeError")
  | Some _ => call ev oracle
  end.

(** [datetime.now()] *)
Definition now : M datetime := fun st =>
  (Returns (clock env (ticks st)),
   {| target_url := target_url st; screenshot_dir := screenshot_dir st;
      metadata_file := metadata_file st; interval_seconds := interval_seconds st;
      browser_session := browser_session st; metadata_list := metadata_list st;
      ticks := S (ticks st); disk := disk st;
     unreachable := unreachable st; trace := trace st |}).

(** Lines 114-116: [open(..., 'w')] and [json.dump] of [data]. *)
Definition write_metadata_file (data : json) : M unit := fun st =>
  let st' := called (WriteFile (Path.str (metadata_file st)) data) st in
  match file_write env (ticks st) with
  | WriteOk => (Returns tt, set_disk (Some (Document data)) st')
  | OpenFails cls => (Raises (Exception cls), st')
  | DumpFails cls residue => (Raises (Exception cls), set_disk (Some residue) st')
  end.

(** [__init__] (lines 70-97) *)
Definition __init__ (target : string) (dir file : string) (interval : Z)
    (disk0 : option file_content) : outcome State :=
  let st :=
    {| target_url := target; screenshot_dir := Path.of_string dir;
       metadata_file := Path.of_string file; interval_seconds := interval;
       browser_session := None; metadata_list := [];
       ticks := 0; disk := disk0; unreachable := path_error env; trace := [] |} in
  match (call (Mkdir (Path.str (screenshot_dir st))) (mkdir env);;
         _load_metadata) st with
  | (Returns _, st') => Returns st'
  | (Raises e, _) => Raises e
  end.

(** [_save_metadata] (lines 111-119) *)
Definition _save_metadata : M unit :=
  try_except
    (let* st := get in
     write_metadata_file (JArr (map model_dump (metadata_list st)));;
     print (MsgSaved (Path.str (metadata_file st))))
    (fun e => print (MsgSaveFailed e)).

(** [wait_for_login] (lines 121-166) *)
Definition wait_for_login : M bool :=
  let* st := get in
  print (MsgLoginBanner (target_url st));;
  let session := {| headless := false |} in
  modify (set_browser_session (Some session));;
  modify (emitted (OpenBrowser session));;
  on_session (Goto (target_url st)) (fun t => browser_goto env t (target_url st));;
  print MsgWaitingForLogin;;
  call (Sleep 5) (fun t => asyncio_sleep env t 5);;
  call Input (console_input env);;
  print MsgLoginConfirmed;;
  ret true.

(** [blocks_found] after the agent's [report_blocks] calls: each call
    rebinds the variable (lines 186-187). *)
Definition last_report (reports : list (list ScreenshotBlock)) : list ScreenshotBlock :=
  fold_left (fun _ params => params) reports [].

(** Line 210: [agent.run()]. The value is [blocks_found] as the agent
    left it, together with how the run ended; the reports are events. *)
Definition run_agent : M (list ScreenshotBlock * outcome unit) := fun st =>
  let '(reports, ended) := agent_run env (ticks st) in
  (Returns (last_report reports, ended),
   {| target_url := target_url st; screenshot_dir := screenshot_dir st;
      metadata_file := metadata_file st; interval_seconds := interval_seconds st;
      browser_session := browser_session st; metadata_list := metadata_list st;
      ticks := S (ticks st); disk := disk st;
      unreachable := unreachable st;
      trace := trace st ++ AgentRun :: map ReportBlocks reports |}).

(** [identify_chart_blocks] (lines 168-227) *)
Definition identify_chart_blocks : M (list ScreenshotBlock) :=
  print MsgIdentifying;;
  let* st := get in
  match browser_session st with
  | None => raise (Exception "RuntimeError")
  | Some _ =>
      let* ran := run_agent in
      let blocks_found := fst ran in
      match snd ran with
      | Returns _ => ret tt
      | Raises e => if is_Exception e then print (MsgAgentError e) else raise e
      end;;
      match blocks_found with
      | _ :: _ => print (MsgIdentified blocks_found);; ret blocks_found
      | [] => print MsgNoneIdentified;; ret fallback_blocks
      end
  end.

(** [_get_current_url] (lines 274-283) *)
Definition _get_current_url : M string :=
  let* st := get in
  match browser_session st with
  | None => ret (target_url st)
  | Some _ =>
      try_except (call GetState (browser_get_state env))
                 (fun _ => ret (target_url st))
  end.

(** Line 248. *)
Definition block_filename (block : ScreenshotBlock) (timestamp_safe : string) : string :=
  name block +:+ "_" +:+ timestamp_safe +:+ ".png".

(** The body of the [for] loop (lines 246-268). *)
Definition capture_block (timestamp timestamp_safe current_url : string)
    (block : ScreenshotBlock) : M unit :=
  try_except
    (let* st := get in
     let filename := block_filename block timestamp_safe in
     let filepath := Path.truediv (screenshot_dir st) filename in
     on_session (ScreenshotElement (selector block) (Path.str filepath))
       (fun t => browser_screenshot_element env t (selector block) (Path.str filepath));;
     match Path.relative_to_dot filepath with
     | Raises e => raise e
     | Returns relative =>
         let metadata :=
           {| timestamp := timestamp; block_name := name block;
              screenshot_path := Path.str relative; url := current_url |} in
         modify (fun s => set_metadata_list (metadata_list s ++ [metadata]) s);;
         print (MsgBlockOk (name block) (Path.str filepath))
     end)
    (fun e => print (MsgBlockFailed (name block) e)).

(** [capture_block_screenshots] (lines 229-272) *)
Definition capture_block_screenshots (blocks : list ScreenshotBlock) : M unit :=
  let* st := get in
  match browser_session st with
  | None => raise (Exception "RuntimeError")
  | Some _ =>
      let* t1 := now in
      let timestamp := isoformat t1 in
      let* t2 := now in
      let timestamp_safe := strftime t2 in
      let* current_url := _get_current_url in
      print (MsgCapturing timestamp);;
      for_each blocks (capture_block timestamp timestamp_safe current_url);;
      _save_metadata;;
      let* st' := get in
      print (MsgCycleCompleted (length (metadata_list st')))
  end.

(** One turn of the [while True] loop (lines 314-330). *)
Definition cycle_body (blocks : list ScreenshotBlock) (cycle : nat) : M unit :=
  let* st := get in
  print (MsgCycleHeader cycle);;
  on_session (Goto (target_url st)) (fun t => browser_goto env t (target_url st));;
  call (Sleep 3) (fun t => asyncio_sleep env t 3);;
  capture_block_screenshots blocks;;
  print (MsgNextIn (interval_seconds st));;
  call (Sleep (interval_seconds st))
       (fun t => asyncio_sleep env t (interval_seconds st)).

(** The loop of lines 313-330 never ends by itself: [Some e] is the
    exception that ended it, [None] says it is still turning. *)
Fixpoint monitoring_cycles (fuel : nat) (blocks : list ScreenshotBlock)
    (cycle : nat) (st : State) : option exn * State :=
  match fuel with
  | 0 => (None, st)
  | S fuel' =>
      match cycle_body blocks cycle st with
      | (Returns _, st') => monitoring_cycles fuel' blocks (S cycle) st'
      | (Raises e, st') => (Some e, st')
      end
  end.

(** The [except] clauses of lines 332-335. *)
Definition loop_handlers (e : exn) : M unit :=
  match e with
  | KeyboardInterrupt => print MsgStoppedByUser
  | Exception _ => print (MsgLoopError e)
  | BaseException _ => ret tt
  end.

Definition is_caught (e : exn) : bool :=
  match e with
  | KeyboardInterrupt | Exception _ => true
  | BaseException _ => false
  end.

(** The [finally] clause (lines 336-345). *)
Definition finally_clause : M unit :=
  _save_metadata;;
  let* st := get in
  print (MsgTotals (length (metadata_list st)) (Path.str (screenshot_dir st))
                   (Path.str (metadata_file st)));;
  match browser_session st with
  | Some _ => call CloseBrowser (browser_close env)
  | None => ret tt
  end.

(** The state once the banner of lines 289-296 is printed. *)
Definition announced (st : State) : State :=
  printed (MsgStartBanner (target_url st) (interval_seconds st)
             (Path.str (screenshot_dir st)) (Path.str (metadata_file st))) st.

(** [run_monitoring_loop] (lines 285-345). [None]: still in the loop.
    Line 293 divides the interval by 60; for an integer beyond the range
    of a float that raises, after the first lines of the banner. *)
Definition run_monitoring_loop (fuel : nat) (st : State) : option (outcome unit) * State :=
  if banner_overflows (interval_seconds st) then
    (Some (Raises (Exception "OverflowError")),
     printed (MsgStartBannerHead (target_url st)) st)
  else
  let st0 := announced st in
  match wait_for_login st0 with
  | (Raises e, st1) => (Some (Raises e), st1)
  | (Returns false, st1) => (Some (Returns tt), printed MsgLoginFailed st1)
  | (Returns true, st1) =>
      match identify_chart_blocks st1 with
      | (Raises e, st2) => (Some (Raises e), st2)
      | (Returns [], st2) => (Some (Returns tt), printed MsgNoBlocksExit st2)
      | (Returns blocks, st2) =>
          match monitoring_cycles fuel blocks 1 st2 with
          | (None, st3) => (None, st3)
          | (Some e, st3) =>
              match (loop_handlers e;; finally_clause) st3 with
              | (Raises e', st4) => (Some (Raises e'), st4)
              | (Returns _, st4) =>
                  (Some (if is_caught e then Returns tt else Raises e), st4)
              end
          end
      end
  end.

End Monitor.

(** ** [main] (lines 348-372), from the parsed arguments *)

(** The namespace [parser.parse_args()] returns. *)
Record Namespace := {
  arg_url : string;
  arg_interval : Z;
  arg_screenshot_dir : string;
  arg_metadata_file : string;
}.

(** The namespace for a command line that gives [--url] only
    (the defaults of lines 354-360). *)
Definition default_args (target : string) : Namespace :=
  {| arg_url := target;
     arg_interval := 300;
     arg_screenshot_dir := "screenshots";
     arg_metadata_file := "screenshot_metadata.json" |}.

(** Lines 365-372: build the monitor, run it. [disk0] is the metadata
    file the process finds. When [__init__] raises there is no monitor. *)
Definition main (env : Env) (args : Namespace) (disk0 : option file_content)
    (fuel : nat) : option (outcome unit) * option State :=
  match __init__ env (arg_url args) (arg_screenshot_dir args)
          (arg_metadata_file args) (arg_interval args) disk0 with
  | Raises e => (Some (Raises e), None)
  | Returns monitor =>
      (fst (run_monitoring_loop env fuel monitor),
       Some (snd (run_monitoring_loop env fuel monitor)))
  end.

(** * Vocabulary of the properties *)

(** A well-formed record of the metadata file: a JSON object whose four
    fields are strings, here those of [m]. *)
Definition well_formed (item : json) (m : ScreenshotMetadata) : Prop :=
  exists members,
    item = JObj members /\
    dict_get "timestamp" members = Some (JStr (timestamp m)) /\
    dict_get "block_name" members = Some (JStr (block_name m)) /\
    dict_get "screenshot_path" members = Some (JStr (screenshot_path m)) /\
    dict_get "url" members = Some (JStr (url m)).

(** A malformed metadata file: it cannot be opened or parsed, or its
    document is no array, or some item of the array is no record. *)
Inductive malformed : file_content -> Prop :=
| malformed_text cls : malformed (Unloadable cls)
| malformed_not_array data :
    (forall items, data <> JArr items) -> malformed (Document data)
| malformed_record items :
    Exists (fun item => forall m, ~ well_formed item m) items ->
    malformed (Document (JArr items)).

(** What a save hands to [json.dump], and the state once the write
    has been attempted. *)
Definition dumped (st : State) : json := JArr (map model_dump (metadata_list st)).

Definition written (st : State) : State :=
  called (WriteFile (Path.str (metadata_file st)) (dumped st)) st.

(** [evolves P st st']: from [st] to [st'] the configuration is unchanged,
    an open session stays, the metadata list and the trace only grow at
    their ends, and every new event satisfies [P]. *)
Record evolves (P : event -> Prop) (st st' : State) : Prop := {
  same_target : target_url st' = target_url st;
  same_dir : screenshot_dir st' = screenshot_dir st;
  same_file : metadata_file st' = metadata_file st;
  same_interval : interval_seconds st' = interval_seconds st;
  session_stays : is_Some (browser_session st) -> is_Some (browser_session st');
  list_grows : metadata_list st `prefix_of` metadata_list st';
  trace_grows : exists new, trace st' = trace st ++ new /\ Forall P new;
}.

Definition steady (P : event -> Prop) {A} (m : M A) : Prop :=
  forall st, evolves P st (m st).2.

(** The events of every method but the three messages of
    [run_monitoring_loop] that open a loop turn or announce an early
    return. *)
Definition ordinary (ev : event) : bool :=
  match ev with
  | Print MsgNoBlocksExit | Print MsgLoginFailed | Print (MsgCycleHeader _) => false
  | _ => true
  end.

(** The events of the login wait and of the discovery. *)
Definition staging (ev : event) : bool :=
  match ev with
  | Print (MsgStartBannerHead _) | Print (MsgStartBanner _ _ _ _)
  | Print (MsgLoginBanner _) | Print MsgWaitingForLogin | Print MsgLoginConfirmed
  | Print MsgIdentifying | Print (MsgAgentError _) | Print (MsgIdentified _)
  | Print MsgNoneIdentified => true
  | OpenBrowser _ | Goto _ | Sleep _ | Input | AgentRun | ReportBlocks _ => true
  | _ => false
  end.

(** The two actions of the [finally] clause on the outside: a write of
    the metadata file and the close of the browser. *)
Definition cleanup_event (ev : event) : bool :=
  match ev with
  | WriteFile _ _ | CloseBrowser => true
  | _ => false
  end.

(** What [identify_chart_blocks] returns once the agent has run. *)
Definition chosen_blocks (blocks_found : list ScreenshotBlock) : list ScreenshotBlock :=
  match blocks_found with
  | [] => fallback_blocks
  | _ :: _ => blocks_found
  end.

(** The screenshot requests among some events: selector and file. *)
Definition screenshots (events : list event) : list (string * string) :=
  omap (fun ev => match ev with
                  | ScreenshotElement sel file => Some (sel, file)
                  | _ => None
                  end) events.

(** The record line 257 builds for a block. *)
Definition record_of (timestamp_iso timestamp_safe current_url : string)
    (dir : Path.t) (b : ScreenshotBlock) : ScreenshotMetadata :=
  {| timestamp := timestamp_iso;
     block_name := name b;
     screenshot_path := Path.str (Path.truediv dir (block_filename b timestamp_safe));
     url := current_url |}.

(** The request line 252 makes for a block: selector and file. *)
Definition request_of (timestamp_safe : string) (dir : Path.t) (b : ScreenshotBlock)
    : string * string :=
  (selector b, Path.str (Path.truediv dir (block_filename b timestamp_safe))).

(** [m] may append records to the metadata list and does nothing else
    to it. *)
Definition appends_only {A} (m : M A) : Prop :=
  forall st, metadata_list st `prefix_of` metadata_list (m st).2.

(** Whether a block name begins with a slash. *)
Definition starts_with_slash (s : string) : bool :=
  match s with
  | String c _ => Ascii.eqb c "/"
  | EmptyString => false
  end.

(** ** Sample collaborators, states and files *)

Definition noon : datetime :=
  {| year := 2024; month := 1; day := 15;
     hour := 12; minute := 0; second := 7; microsecond := 0 |}.

(** Collaborators that answer the same way at every call. *)
Definition scripted (shot : string -> outcome unit) (state : outcome string)
    (sleep : Z -> outcome unit) (input : outcome string)
    (agent : list (list ScreenshotBlock) * outcome unit) : Env :=
  {| clock := fun _ => noon;
     mkdir := fun _ => Returns tt;
     path_error := None;
     file_write := fun _ => WriteOk;
     browser_goto := fun _ _ => Returns tt;
     browser_get_state := fun _ => state;
     browser_screenshot_element := fun _ sel _ => shot sel;
     browser_close := fun _ => Returns tt;
     asyncio_sleep := fun _ seconds => sleep seconds;
     console_input := fun _ => input;
     agent_run := fun _ => agent |}.

Definition live_url : string := "https://example.com/live".

(** Nothing fails and the agent reports nothing. *)
Definition calm : Env :=
  scripted (fun _ => Returns tt) (Returns live_url) (fun _ => Returns tt)
           (Returns "") ([], Returns tt).

(** The screenshot of the [svg] selector times out. *)
Definition svg_times_out : Env :=
  scripted (fun sel => if String.eqb sel "svg" then Raises (Exception "TimeoutError")
                       else Returns tt)
           (Returns live_url) (fun _ => Returns tt) (Returns "") ([], Returns tt).

(** The user presses Ctrl-C during the sleep between two cycles. *)
Definition stopped_while_sleeping : Env :=
  scripted (fun _ => Returns tt) (Returns live_url)
           (fun seconds => if (seconds =? 300)%Z then Raises KeyboardInterrupt
                           else Returns tt)
           (Returns "") ([], Returns tt).

(** The user presses Ctrl-C while the script waits for ENTER. *)
Definition stopped_at_login : Env :=
  scripted (fun _ => Returns tt) (Returns live_url) (fun _ => Returns tt)
           (Raises KeyboardInterrupt) ([], Returns tt).

(** The user presses Ctrl-C during the state query. *)
Definition stopped_in_state_query : Env :=
  scripted (fun _ => Returns tt) (Raises KeyboardInterrupt) (fun _ => Returns tt)
           (Returns "") ([], Returns tt).

Definition sales_chart : ScreenshotBlock :=
  {| name := "Sales Chart"; selector := "#sales" |}.

Definition slash_chart : ScreenshotBlock :=
  {| name := "/Revenue"; selector := "#revenue" |}.

(** The agent reports one block, then its run fails. *)
Definition reports_then_fails : Env :=
  scripted (fun _ => Returns tt) (Returns live_url) (fun _ => Returns tt)
           (Returns "") ([[sales_chart]], Raises (Exception "RuntimeError")).

(** The agent fails without a report. *)
Definition agent_fails : Env :=
  scripted (fun _ => Returns tt) (Returns live_url) (fun _ => Returns tt)
           (Returns "") ([], Raises (Exception "RuntimeError")).

(** A monitor as [__init__] leaves it when there is no metadata file. *)
Definition fresh (dir : string) : State :=
  {| target_url := "https://example.com/dashboard";
     screenshot_dir := Path.of_string dir;
     metadata_file := Path.of_string "screenshot_metadata.json";
     interval_seconds := 300;
     browser_session := None;
     metadata_list := [];
     ticks := 0; disk := None; unreachable := None; trace := [] |}.

(** A monitor after the login, holding [records], with [content] on disk. *)
Definition logged_in (dir : string) (records : list ScreenshotMetadata)
    (content : option file_content) : State :=
  {| target_url := "https://example.com/dashboard";
     screenshot_dir := Path.of_string dir;
     metadata_file := Path.of_string "screenshot_metadata.json";
     interval_seconds := 300;
     browser_session := Some {| headless := false |};
     metadata_list := records;
     ticks := 0; disk := content; unreachable := None; trace := [] |}.

Definition first_record : ScreenshotMetadata :=
  {| timestamp := "2024-01-15T12:00:07"; block_name := "Chart-Canvas";
     screenshot_path := "screenshots/Chart-Canvas_20240115_120007.png";
     url := live_url |}.

Definition second_record : ScreenshotMetadata :=
  {| timestamp := "2024-01-15T12:05:10"; block_name := "Sales Chart";
     screenshot_path := "screenshots/Sales Chart_20240115_120510.png";
     url := live_url |}.

(** A file of two records; the second has its keys in another order and
    a key the model does not know. *)
Definition two_records_file : list json :=
  [ model_dump first_record;
    JObj [("url", JStr live_url);
          ("note", JNull);
          ("screenshot_path", JStr "screenshots/Sales Chart_20240115_120510.png");
          ("block_name", JStr "Sales Chart");
          ("timestamp", JStr "2024-01-15T12:05:10")] ].

(** A file whose second item has a number for a timestamp. *)
Definition bad_record_file : list json :=
  [ model_dump first_record;
    JObj [("timestamp", JInt 1705320307);
          ("block_name", JStr "Sales Chart");
          ("screenshot_path", JStr "x.png");
          ("url", JStr live_url)] ].

(** The file opens, but [json.dump] cannot write it out (a full disk):
    the file is left cut short. *)
Definition unwritable : Env :=
  {| clock := clock calm;
     mkdir := mkdir calm;
     path_error := path_error calm;
     file_write := fun _ => DumpFails "OSError" (Unloadable "JSONDecodeError");
     browser_goto := browser_goto calm;
     browser_get_state := browser_get_state calm;
     browser_screenshot_element := browser_screenshot_element calm;
     browser_close := browser_close calm;
     asyncio_sleep := asyncio_sleep calm;
     console_input := console_input calm;
     agent_run := agent_run calm |}.

(** The agent's run is interrupted. *)
Definition stopped_in_discovery : Env :=
  scripted (fun _ => Returns tt) (Returns live_url) (fun _ => Returns tt)
           (Returns "") ([], Raises KeyboardInterrupt).

(** The first write of the metadata file cannot open it; later ones can. *)
Definition disk_fails_once : Env :=
  {| clock := clock calm;
     mkdir := mkdir calm;
     path_error := path_error calm;
     file_write := fun t => if t =? 0 then OpenFails "PermissionError" else WriteOk;
     browser_goto := browser_goto calm;
     browser_get_state := browser_get_state calm;
     browser_screenshot_element := browser_screenshot_element calm;
     browser_close := browser_close calm;
     asyncio_sleep := asyncio_sleep calm;
     console_input := console_input calm;
     agent_run := agent_run calm |}.

(** The disk is full, the state query and the [svg] screenshot time out;
    navigation and sleeps go through. *)
Definition everything_flaky : Env :=
  {| clock := clock calm;
     mkdir := mkdir calm;
     path_error := path_error calm;
     file_write := fun _ => DumpFails "OSError" (Unloadable "JSONDecodeError");
     browser_goto := browser_goto calm;
     browser_get_state := fun _ => Raises (Exception "TimeoutError");
     browser_screenshot_element := browser_screenshot_element svg_times_out;
     browser_close := browser_close calm;
     asyncio_sleep := asyncio_sleep calm;
     console_input := console_input calm;
     agent_run := agent_run calm |}.

(** The directory of the screenshots cannot be created. *)
Definition no_directory : Env :=
  {| clock := clock calm;
     mkdir := fun _ => Raises (Exception "PermissionError");
     path_error := path_error calm;
     file_write := file_write calm;
     browser_goto := browser_goto calm;
     browser_get_state := browser_get_state calm;
     browser_screenshot_element := browser_screenshot_element calm;
     browser_close := browser_close calm;
     asyncio_sleep := asyncio_sleep calm;
     console_input := console_input calm;
     agent_run := agent_run calm |}.

(** The agent reports one block, then reports an empty list. *)
Definition reports_then_retracts : Env :=
  scripted (fun _ => Returns tt) (Returns live_url) (fun _ => Returns tt)
           (Returns "") ([[sales_chart]; []], Returns tt).

(** The state once lines 239-240 have read the clock twice. *)
Definition clock_read_twice (st : State) : State :=
  {| target_url := target_url st; screenshot_dir := screenshot_dir st;
     metadata_file := metadata_file st; interval_seconds := interval_seconds st;
     browser_session := browser_session st; metadata_list := metadata_list st;
     ticks := S (S (ticks st)); disk := disk st;
     unreachable := unreachable st; trace := trace st |}.

(** The URL a cycle that starts in [st] writes into its records. *)
Definition cycle_url (env : Env) (st : State) : string :=
  match browser_get_state env (S (S (ticks st))) with
  | Returns reported => reported
  | Raises _ => target_url st
  end.

(** The four fields of the model (lines 46-49). *)
Definition model_fields : list string :=
  ["timestamp"; "block_name"; "screenshot_path"; "url"].

(** * Properties *)

(** ** The records and the metadata file *)

Lemma str_field_Some k kwargs s :
  str_field k kwargs = Some s <-> dict_get k kwargs = Some (JStr s).
Proof.
  unfold str_field. split.
  - destruct (dict_get k kwargs) as [[]|]; congruence.
  - intros ->. reflexivity.
Qed.

Lemma init_well_formed item m :
  ScreenshotMetadata_init item = Returns m <-> well_formed item m.
Proof.
  split.
  - destruct item; simpl; try discriminate.
    destruct (str_field "timestamp" members) as [t|] eqn:Ht; [|discriminate].
    destruct (str_field "block_name" members) as [b|] eqn:Hb; [|discriminate].
    destruct (str_field "screenshot_path" members) as [p|] eqn:Hp; [|discriminate].
    destruct (str_field "url" members) as [u|] eqn:Hu; [|discriminate].
    intros [= <-]. exists members. simpl.
    rewrite <- !str_field_Some. auto.
  - intros (members & -> & Ht & Hb & Hp & Hu). simpl.
    apply str_field_Some in Ht, Hb, Hp, Hu.
    rewrite Ht, Hb, Hp, Hu. destruct m; reflexivity.
Qed.

Lemma comprehension_model_dump l :
  comprehension (map model_dump l) = Returns l.
Proof.
  induction l as [|m l IH]; simpl; [reflexivity|].
  rewrite IH. destruct m; reflexivity.
Qed.

Lemma comprehension_Returns items records :
  comprehension items = Returns records <-> Forall2 well_formed items records.
Proof.
  revert records. induction items as [|item items IH]; intros records; simpl.
  - split.
    + intros [= <-]. constructor.
    + intros H. inversion H. reflexivity.
  - split.
    + destruct (ScreenshotMetadata_init item) as [m|] eqn:Hm; [|discriminate].
      destruct (comprehension items) as [l|]; [|discriminate].
      intros [= <-]. constructor.
      * by apply init_well_formed.
      * by apply IH.
    + intros H. inversion H as [|? m ? l Hm Hl]; subst.
      apply init_well_formed in Hm. apply IH in Hl. by rewrite Hm, Hl.
Qed.

Lemma comprehension_Exception items e :
  comprehension items = Raises e -> is_Exception e = true.
Proof.
  induction items as [|item items IH]; simpl; [discriminate|].
  destruct (ScreenshotMetadata_init item) as [m|e'] eqn:Hm.
  - destruct (comprehension items); [discriminate|]. intros [= <-]. by apply IH.
  - intros [= <-]. destruct item; simpl in Hm; try by inversion Hm.
    repeat match type of Hm with
           | context [match ?x with _ => _ end] => destruct x
           end; by inversion Hm.
Qed.

Lemma load_records_Exception content e :
  load_records content = Raises e -> is_Exception e = true.
Proof.
  destruct content as [cls|data]; simpl.
  - by intros [= <-].
  - destruct data; simpl; try by intros [= <-].
    all: apply comprehension_Exception.
Qed.

Lemma load_records_malformed content :
  malformed content ->
  load_records content = Returns [] \/ exists e, load_records content = Raises e.
Proof.
  intros [cls|data Hdata|items Hbad]; simpl.
  - eauto.
  - destruct data; simpl; eauto.
    + destruct s; simpl; eauto.
    + by destruct (Hdata items).
    + destruct (dict_keys members); simpl; eauto.
  - destruct (comprehension items) as [l|e] eqn:Hl; eauto.
    apply comprehension_Returns in Hl. exfalso.
    induction Hl as [|item m items l Hm Hl IH]; inversion Hbad; subst; eauto.
    naive_solver.
Qed.

(** ** [_load_metadata], case by case *)

Lemma load_metadata_absent st :
  disk st = None -> unreachable st = None -> _load_metadata st = (Returns tt, st).
Proof. intros H Hu. unfold _load_metadata, bind, get. by rewrite H, Hu. Qed.

Lemma load_metadata_unreachable st cls :
  disk st = None -> unreachable st = Some cls ->
  _load_metadata st = (Raises (Exception cls), st).
Proof. intros H Hu. unfold _load_metadata, bind, get. by rewrite H, Hu. Qed.

Lemma load_metadata_loaded st content records :
  disk st = Some content ->
  load_records content = Returns records ->
  _load_metadata st =
    (Returns tt, printed (MsgLoaded (length records)) (set_metadata_list records st)).
Proof.
  intros Hd Hl. unfold _load_metadata, bind, get, try_except. rewrite Hd, Hl.
  reflexivity.
Qed.

Lemma load_metadata_failed st content e :
  disk st = Some content ->
  load_records content = Raises e ->
  _load_metadata st =
    (Returns tt, set_metadata_list [] (printed (MsgCouldNotLoad e) st)).
Proof.
  intros Hd Hl. unfold _load_metadata, bind, get, try_except. rewrite Hd, Hl.
  unfold raise. by rewrite (load_records_Exception _ _ Hl).
Qed.

(** [_load_metadata] leaves the metadata file alone. *)
Lemma load_metadata_keeps_disk st : disk (_load_metadata st).2 = disk st.
Proof.
  destruct (disk st) as [content|] eqn:Hd.
  - destruct (load_records content) as [l|e] eqn:Hl.
    + by erewrite load_metadata_loaded.
    + by erewrite load_metadata_failed.
  - destruct (unreachable st) as [cls|] eqn:Hu.
    + by erewrite load_metadata_unreachable.
    + by rewrite load_metadata_absent.
Qed.

(** ** [_save_metadata], case by case *)

Section SaveFacts.

Variable env : Env.

Lemma save_metadata_ok st :
  file_write env (ticks st) = WriteOk ->
  _save_metadata env st =
    (Returns tt,
     printed (MsgSaved (Path.str (metadata_file st)))
       (set_disk (Some (Document (dumped st))) (written st))).
Proof.
  intros H. unfold _save_metadata, try_except, bind, get, write_metadata_file.
  by rewrite H.
Qed.

Lemma save_metadata_open_fails st cls :
  file_write env (ticks st) = OpenFails cls ->
  _save_metadata env st =
    (Returns tt, printed (MsgSaveFailed (Exception cls)) (written st)).
Proof.
  intros H. unfold _save_metadata, try_except, bind, get, write_metadata_file.
  by rewrite H.
Qed.

Lemma save_metadata_dump_fails st cls residue :
  file_write env (ticks st) = DumpFails cls residue ->
  _save_metadata env st =
    (Returns tt,
     printed (MsgSaveFailed (Exception cls)) (set_disk (Some residue) (written st))).
Proof.
  intros H. unfold _save_metadata, try_except, bind, get, write_metadata_file.
  by rewrite H.
Qed.

(** Whatever the disk does, [_save_metadata] returns, leaves the list
    alone, and records the write and one message. *)
Lemma save_metadata_always st :
  exists st' m,
    _save_metadata env st = (Returns tt, st') /\
    metadata_list st' = metadata_list st /\
    browser_session st' = browser_session st /\
    screenshot_dir st' = screenshot_dir st /\
    metadata_file st' = metadata_file st /\
    ticks st' = S (ticks st) /\
    (m = MsgSaved (Path.str (metadata_file st)) \/ exists e, m = MsgSaveFailed e) /\
    trace st' =
      trace st ++ [WriteFile (Path.str (metadata_file st)) (dumped st); Print m].
Proof.
  destruct (file_write env (ticks st)) as [|cls|cls residue] eqn:H.
  - eexists _, _. split; [by apply save_metadata_ok|]. simpl.
    rewrite <- app_assoc. eauto 10.
  - eexists _, _. split; [by eapply save_metadata_open_fails|]. simpl.
    rewrite <- app_assoc. eauto 10.
  - eexists _, _. split; [by eapply save_metadata_dump_fails|]. simpl.
    rewrite <- app_assoc. eauto 10.
Qed.

End SaveFacts.

(** ** Claims about the metadata file *)

(** C6: when the metadata file holds a JSON array of N well-formed
    records, [_load_metadata] returns and the in-memory list is those N
    records, in the order of the file. *)
Theorem load_metadata_well_formed st items records :
  disk st = Some (Document (JArr items)) ->
  Forall2 well_formed items records ->
  exists st',
    _load_metadata st = (Returns tt, st') /\
    metadata_list st' = records /\
    length (metadata_list st') = length items.
Proof.
  intros Hd Hwf. pose proof (Forall2_length _ _ _ Hwf) as Hlen.
  apply comprehension_Returns in Hwf.
  eexists. split; [|split].
  - eapply load_metadata_loaded; [exact Hd|]. exact Hwf.
  - reflexivity.
  - simpl. by rewrite Hlen.
Qed.


Lemma load_of_dump reader records :
  disk reader = Some (Document (JArr (map model_dump records))) ->
  (_load_metadata reader).1 = Returns tt /\
  metadata_list (_load_metadata reader).2 = records.
Proof.
  intros Hd. erewrite load_metadata_loaded; [done|exact Hd|].
  simpl. apply comprehension_model_dump.
Qed.

(** C1 as the code has it: when the write of a save is accepted, the
    save returns, the file holds the dump of the whole list, and a load
    of that file - by any monitor, whatever list it held before - returns
    and gives a list equal to the one saved; in particular for a list that
    has just had one record appended. *)
Theorem save_load_roundtrip env st :
  file_write env (ticks st) = WriteOk ->
  (_save_metadata env st).1 = Returns tt /\
  disk (_save_metadata env st).2 =
    Some (Document (JArr (map model_dump (metadata_list st)))) /\
  (forall reader,
     disk reader = disk (_save_metadata env st).2 ->
     (_load_metadata reader).1 = Returns tt /\
     metadata_list (_load_metadata reader).2 = metadata_list st) /\
  (forall m reader,
     disk reader =
       disk (_save_metadata env (set_metadata_list (metadata_list st ++ [m]) st)).2 ->
     (_load_metadata reader).1 = Returns tt /\
     metadata_list (_load_metadata reader).2 = metadata_list st ++ [m]).
Proof.
  intros Hw. rewrite (save_metadata_ok env st Hw). simpl.
  split; [done|]. split; [done|]. split.
  - intros reader Hd. by apply load_of_dump.
  - intros m reader.
    rewrite (save_metadata_ok env (set_metadata_list (metadata_list st ++ [m]) st) Hw).
    simpl. intros Hd. by apply load_of_dump.
Qed.

(** ** What no method of a run undoes *)

Section Frame.

Variable P : event -> Prop.

Lemma evolves_refl st : evolves P st st.
Proof.
  split; try done. exists []. by rewrite app_nil_r.
Qed.

Lemma evolves_trans st1 st2 st3 :
  evolves P st1 st2 -> evolves P st2 st3 -> evolves P st1 st3.
Proof.
  intros [] [].
  split; try congruence; try by etrans.
  - auto.
  - destruct trace_grows0 as (n1 & E1 & F1), trace_grows1 as (n2 & E2 & F2).
    exists (n1 ++ n2). rewrite E2, E1, app_assoc. split; [done|].
    by apply Forall_app.
Qed.

Lemma evolves_emitted ev st : P ev -> evolves P st (emitted ev st).
Proof.
  intros H. split; try done. exists [ev]. split; [done|]. by constructor.
Qed.

Lemma evolves_called ev st : P ev -> evolves P st (called ev st).
Proof.
  intros H. split; try done. exists [ev]. split; [done|]. by constructor.
Qed.

Lemma steady_ret {A} (a : A) : steady P (ret a).
Proof. intros st. apply evolves_refl. Qed.

Lemma steady_raise {A} e : steady P (@raise A e).
Proof. intros st. apply evolves_refl. Qed.

Lemma steady_get : steady P get.
Proof. intros st. apply evolves_refl. Qed.

Lemma steady_bind {A B} (m : M A) (k : A -> M B) :
  steady P m -> (forall a, steady P (k a)) -> steady P (bind m k).
Proof.
  intros Hm Hk st. unfold bind. specialize (Hm st).
  destruct (m st) as [[a|e] st']; simpl in *; [|done].
  eapply evolves_trans; [exact Hm|]. apply Hk.
Qed.

Lemma steady_try_except {A} (body : M A) handler :
  steady P body -> (forall e, steady P (handler e)) ->
  steady P (try_except body handler).
Proof.
  intros Hb Hh st. unfold try_except. specialize (Hb st).
  destruct (body st) as [[a|e] st']; simpl in *; [done|].
  destruct (is_Exception e); [|done].
  eapply evolves_trans; [exact Hb|]. apply Hh.
Qed.

Lemma steady_for_each {A} (l : list A) body :
  (forall x, steady P (body x)) -> steady P (for_each l body).
Proof.
  intros Hb. induction l as [|x l IH]; simpl.
  - apply steady_ret.
  - apply steady_bind; auto.
Qed.

Lemma steady_print m : P (Print m) -> steady P (print m).
Proof. intros H st. by apply evolves_emitted. Qed.

Lemma steady_append m :
  steady P (modify (fun s => set_metadata_list (metadata_list s ++ [m]) s)).
Proof.
  intros st. split; try done.
  - simpl. by apply prefix_app_r.
  - exists []. by rewrite app_nil_r.
Qed.

Lemma steady_open_session s :
  steady P (modify (set_browser_session (Some s))).
Proof.
  intros st. split; try done.
  exists []. by rewrite app_nil_r.
Qed.

End Frame.

Ltac steady_step HP :=
  lazymatch goal with
  | |- steady _ (ret _) => apply steady_ret
  | |- steady _ (raise _) => apply steady_raise
  | |- steady _ get => apply steady_get
  | |- steady _ (print _) => apply steady_print; apply HP; reflexivity
  | |- steady _ (modify (set_browser_session _)) => apply steady_open_session
  | |- steady _ (modify (fun s => set_metadata_list _ s)) => apply steady_append
  | |- steady _ (bind _ _) => apply steady_bind; [|intros ?]
  | |- steady _ (try_except _ _) => apply steady_try_except; [|intros ?]
  | |- steady _ (for_each _ _) => apply steady_for_each; intros ?
  | |- steady _ (match ?x with _ => _ end) => destruct x
  end.

Section MethodsFrame.

Variable env : Env.
Variable P : event -> Prop.
Hypothesis HP : forall ev, ordinary ev = true -> P ev.

Lemma steady_call_oracle {A} ev (oracle : nat -> outcome A) :
  ordinary ev = true -> steady P (call ev oracle).
Proof. intros H st. apply evolves_called. by apply HP. Qed.

Lemma steady_on_session {A} ev (oracle : nat -> outcome A) :
  ordinary ev = true -> steady P (on_session ev oracle).
Proof.
  intros H. unfold on_session. repeat steady_step HP.
  by apply steady_call_oracle.
Qed.

Lemma steady_now : steady P (now env).
Proof. intros st. split; try done. exists []. by rewrite app_nil_r. Qed.

Lemma steady_write data : steady P (write_metadata_file env data).
Proof.
  intros st. unfold write_metadata_file.
  destruct (file_write env (ticks st)); simpl.
  all: split; try done; eexists [_]; (split; [done|]).
  all: constructor; [by apply HP|constructor].
Qed.

Lemma steady_run_agent : steady P (run_agent env).
Proof.
  intros st. unfold run_agent.
  destruct (agent_run env (ticks st)) as [reports ended]; simpl.
  split; try done. eexists. split; [done|].
  constructor; [by apply HP|].
  apply Forall_forall. intros ev [params [-> _]]%list_elem_of_fmap.
  by apply HP.
Qed.

Lemma steady_save : steady P (_save_metadata env).
Proof.
  unfold _save_metadata. repeat steady_step HP. apply steady_write.
Qed.

Lemma steady_wait_for_login : steady P (wait_for_login env).
Proof.
  unfold wait_for_login. repeat steady_step HP.
  - intros st. apply evolves_emitted. by apply HP.
  - by apply steady_on_session.
  - by apply steady_call_oracle.
  - by apply steady_call_oracle.
Qed.

Lemma steady_identify : steady P (identify_chart_blocks env).
Proof.
  unfold identify_chart_blocks. repeat steady_step HP.
  all: apply steady_run_agent.
Qed.

Lemma steady_get_current_url : steady P (_get_current_url env).
Proof.
  unfold _get_current_url. repeat steady_step HP.
  by apply steady_call_oracle.
Qed.

Lemma steady_capture_block t ts u b : steady P (capture_block env t ts u b).
Proof.
  unfold capture_block. repeat steady_step HP.
  all: by apply steady_on_session.
Qed.

Lemma steady_capture blocks : steady P (capture_block_screenshots env blocks).
Proof.
  unfold capture_block_screenshots. repeat steady_step HP.
  all: first [ apply steady_now | apply steady_get_current_url
             | apply steady_capture_block | apply steady_save ].
Qed.

Lemma steady_loop_handlers e : steady P (loop_handlers e).
Proof. unfold loop_handlers. repeat steady_step HP. Qed.

Lemma steady_finally : steady P (finally_clause env).
Proof.
  unfold finally_clause. repeat steady_step HP.
  - apply steady_save.
  - by apply steady_call_oracle.
Qed.

Hypothesis HP_header : forall cycle, P (Print (MsgCycleHeader cycle)).

Lemma steady_cycle_body blocks cycle : steady P (cycle_body env blocks cycle).
Proof.
  unfold cycle_body.
  apply steady_bind; [apply steady_get|intros st].
  apply steady_bind; [by apply steady_print|intros _].
  repeat steady_step HP.
  - by apply steady_on_session.
  - by apply steady_call_oracle.
  - apply steady_capture.
  - by apply steady_call_oracle.
Qed.

Lemma evolves_monitoring_cycles fuel blocks cycle st :
  evolves P st (monitoring_cycles env fuel blocks cycle st).2.
Proof.
  revert cycle st. induction fuel as [|fuel IH]; intros cycle st; simpl.
  - apply evolves_refl.
  - pose proof (steady_cycle_body blocks cycle st) as H.
    destruct (cycle_body env blocks cycle st) as [[[]|e] st']; simpl in *.
    + eapply evolves_trans; [exact H|]. apply IH.
    + exact H.
Qed.

End MethodsFrame.

(** ** Before the loop *)

Section Staging.

Variable env : Env.
Variable P : event -> Prop.
Hypothesis HQ : forall ev, staging ev = true -> P ev.

Lemma staged_call {A} ev (oracle : nat -> outcome A) :
  staging ev = true -> steady P (call ev oracle).
Proof. intros H st. apply evolves_called. by apply HQ. Qed.

Lemma staged_on_session {A} ev (oracle : nat -> outcome A) :
  staging ev = true -> steady P (on_session ev oracle).
Proof.
  intros H. unfold on_session. repeat steady_step HQ.
  by apply staged_call.
Qed.

Lemma staged_run_agent : steady P (run_agent env).
Proof.
  intros st. unfold run_agent.
  destruct (agent_run env (ticks st)) as [reports ended]; simpl.
  split; try done. eexists. split; [done|].
  constructor; [by apply HQ|].
  apply Forall_forall. intros ev [params [-> _]]%list_elem_of_fmap.
  by apply HQ.
Qed.

Lemma staged_wait_for_login : steady P (wait_for_login env).
Proof.
  unfold wait_for_login. repeat steady_step HQ.
  - intros st. apply evolves_emitted. by apply HQ.
  - by apply staged_on_session.
  - by apply staged_call.
  - by apply staged_call.
Qed.

Lemma staged_identify : steady P (identify_chart_blocks env).
Proof.
  unfold identify_chart_blocks. repeat steady_step HQ.
  all: apply staged_run_agent.
Qed.

End Staging.

(** ** Discovery *)

Section Discovery.

Variable env : Env.

Lemma chosen_blocks_nonempty blocks_found : chosen_blocks blocks_found <> [].
Proof. by destruct blocks_found. Qed.

Lemma identify_no_session st :
  browser_session st = None ->
  (identify_chart_blocks env st).1 = Raises (Exception "RuntimeError").
Proof.
  intros H.
  unfold identify_chart_blocks, bind, print, modify, get, printed, emitted. simpl.
  by rewrite H.
Qed.

Lemma identify_with_session st s :
  browser_session st = Some s ->
  (identify_chart_blocks env st).1 =
    match (agent_run env (ticks st)).2 with
    | Raises e =>
        if is_Exception e
        then Returns (chosen_blocks (last_report (agent_run env (ticks st)).1))
        else Raises e
    | Returns _ => Returns (chosen_blocks (last_report (agent_run env (ticks st)).1))
    end.
Proof.
  intros H.
  unfold identify_chart_blocks, bind, print, modify, get, run_agent, printed, emitted.
  simpl. rewrite H. simpl.
  destruct (agent_run env (ticks st)) as [reports [[]|e]]; simpl.
  - by destruct (last_report reports).
  - destruct (is_Exception e); simpl; [|done].
    by destruct (last_report reports).
Qed.

Lemma identify_never_empty st blocks st' :
  identify_chart_blocks env st = (Returns blocks, st') -> blocks <> [].
Proof.
  intros H. assert ((identify_chart_blocks env st).1 = Returns blocks) as H1
    by (by rewrite H).
  destruct (browser_session st) as [s|] eqn:Hs.
  - rewrite (identify_with_session _ _ Hs) in H1.
    destruct (agent_run env (ticks st)).2 as [[]|e].
    + inversion H1. apply chosen_blocks_nonempty.
    + destruct (is_Exception e); inversion H1. apply chosen_blocks_nonempty.
  - by rewrite (identify_no_session _ Hs) in H1.
Qed.

Lemma wait_for_login_true st b st' :
  wait_for_login env st = (Returns b, st') ->
  b = true /\ is_Some (browser_session st').
Proof.
  unfold wait_for_login, bind, print, modify, get, on_session, call,
    printed, emitted, called. simpl.
  destruct (browser_goto env _ _) as [[]|]; [|done].
  destruct (asyncio_sleep env _ _) as [[]|]; [|done].
  destruct (console_input env _); [|done].
  intros [= <- <-]. split; [done|]. by eexists.
Qed.

End Discovery.

(** C4 as the code has it: with a session open, when no block is left
    reported after the agent's run (it never reported, or its last report
    was empty) and the run returned or raised an [Exception], the fallback
    list of exactly three fixed blocks is returned. *)
Theorem identify_chart_blocks_fallback env st s reports ended :
  browser_session st = Some s ->
  agent_run env (ticks st) = (reports, ended) ->
  last_report reports = [] ->
  (forall e, ended = Raises e -> is_Exception e = true) ->
  (identify_chart_blocks env st).1 =
    Returns [ {| name := "Chart-Canvas"; selector := "canvas" |};
              {| name := "Chart-SVG"; selector := "svg" |};
              {| name := "Dashboard-Main";
                 selector := ".dashboard, .chart-container, .graph-container" |} ].
Proof.
  intros Hs Ha Hr He. rewrite (identify_with_session _ _ _ Hs), Ha. simpl.
  rewrite Hr. destruct ended as [[]|e]; [done|].
  by rewrite (He e eq_refl).
Qed.

(** ** The current URL *)

(** C10 as the code has it: [_get_current_url] gives the configured
    target URL without a session or when the state query raises an
    [Exception], gives the reported URL when the query returns, and never
    raises an [Exception]; what it raises comes from the state query, and
    every [KeyboardInterrupt] or other [BaseException] that is no
    [Exception] raised by the state query propagates unchanged. *)
Theorem get_current_url_cases env st :
  (browser_session st = None ->
   (_get_current_url env st).1 = Returns (target_url st)) /\
  (forall s reported, browser_session st = Some s ->
     browser_get_state env (ticks st) = Returns reported ->
     (_get_current_url env st).1 = Returns reported) /\
  (forall s cls, browser_session st = Some s ->
     browser_get_state env (ticks st) = Raises (Exception cls) ->
     (_get_current_url env st).1 = Returns (target_url st)) /\
  (forall e, (_get_current_url env st).1 = Raises e ->
     is_Exception e = false /\ browser_get_state env (ticks st) = Raises e) /\
  (forall s e, browser_session st = Some s ->
     browser_get_state env (ticks st) = Raises e ->
     is_Exception e = false ->
     (_get_current_url env st).1 = Raises e).
Proof.
  unfold _get_current_url, bind, get, try_except, call, ret.
  split; [|split; [|split; [|split]]].
  - by intros ->.
  - by intros s reported -> ->.
  - by intros s cls -> ->.
  - intros e. destruct (browser_session st); [|done].
    destruct (browser_get_state env (ticks st)) as [|e']; [done|].
    destruct (is_Exception e') eqn:He; [done|]. by intros [= <-].
  - by intros s e -> -> ->.
Qed.

(** ** The run *)

Lemma evolves_not_in P x st st' :
  evolves P st st' -> ~ P x -> x ∉ trace st -> x ∉ trace st'.
Proof.
  intros [_ _ _ _ _ _ (new & -> & Hnew)] HPx Hin.
  rewrite elem_of_app. intros [|Hx]; [done|].
  rewrite Forall_forall in Hnew. by apply HPx, Hnew.
Qed.

Section Run.

Variable env : Env.

Lemma loop_handlers_run e st :
  exists st',
    loop_handlers e st = (Returns tt, st') /\
    metadata_list st' = metadata_list st /\
    browser_session st' = browser_session st /\
    screenshot_dir st' = screenshot_dir st /\
    metadata_file st' = metadata_file st /\
    trace st `prefix_of` trace st'.
Proof.
  destruct e; simpl; eexists; (split; [reflexivity|]); simpl;
    repeat split; try done; by apply prefix_app_r.
Qed.

Lemma finally_clause_run st s :
  browser_session st = Some s ->
  exists st' m,
    finally_clause env st = (browser_close env (S (ticks st)), st') /\
    metadata_list st' = metadata_list st /\
    screenshot_dir st' = screenshot_dir st /\
    metadata_file st' = metadata_file st /\
    (m = MsgSaved (Path.str (metadata_file st)) \/ exists e, m = MsgSaveFailed e) /\
    trace st' =
      trace st ++
        [WriteFile (Path.str (metadata_file st)) (dumped st); Print m;
         Print (MsgTotals (length (metadata_list st)) (Path.str (screenshot_dir st))
                  (Path.str (metadata_file st)));
         CloseBrowser].
Proof.
  intros Hs.
  destruct (save_metadata_always env st)
    as (st1 & m & Hsave & Hl & Hb & Hd & Hf & Ht & Hm & Htr).
  unfold finally_clause, bind. rewrite Hsave.
  unfold get, print, modify, call, printed, emitted, called. simpl.
  rewrite Hb, Hs, Ht, Hl, Hd, Hf, Htr. eexists _, m. split; [reflexivity|].
  simpl. repeat split; try done. by rewrite <- !app_assoc.
Qed.

Section RunFrame.

Variable P : event -> Prop.
Hypothesis HP : forall ev, ordinary ev = true -> P ev.
Hypothesis HP_header : forall cycle, P (Print (MsgCycleHeader cycle)).

Lemma evolves_run fuel st : evolves P st (run_monitoring_loop env fuel st).2.
Proof.
  unfold run_monitoring_loop.
  destruct (banner_overflows (interval_seconds st));
    [by apply evolves_emitted, HP|].
  set (st0 := announced st).
  assert (evolves P st st0) as H0 by (by apply evolves_emitted, HP).
  pose proof (steady_wait_for_login env P HP st0) as H1.
  destruct (wait_for_login env st0) as [[b|e] st1] eqn:Hlogin; simpl in H1;
    [|by eapply evolves_trans].
  destruct (wait_for_login_true _ _ _ _ Hlogin) as [-> Hs].
  pose proof (steady_identify env P HP st1) as H2.
  assert (evolves P st st1) as H01 by (by eapply evolves_trans).
  destruct (identify_chart_blocks env st1) as [[blocks|e] st2] eqn:Hid;
    simpl in H2; [|by eapply evolves_trans].
  destruct blocks as [|b blocks];
    [by destruct (identify_never_empty _ _ _ _ Hid)|].
  assert (evolves P st st2) as H02 by (by eapply evolves_trans).
  pose proof (evolves_monitoring_cycles env P HP HP_header fuel (b :: blocks) 1 st2)
    as H3.
  destruct (monitoring_cycles env fuel (b :: blocks) 1 st2) as [[e|] st3];
    simpl in H3; [|by eapply evolves_trans].
  assert (evolves P st st3) as H03 by (by eapply evolves_trans).
  assert (steady P (loop_handlers e;; finally_clause env)) as H4.
  { apply steady_bind; [by apply steady_loop_handlers|].
    intros _. by apply steady_finally. }
  specialize (H4 st3).
  destruct ((loop_handlers e;; finally_clause env) st3) as [[[]|e'] st4];
    simpl in *; by eapply evolves_trans.
Qed.

End RunFrame.

End Run.

(** C9: [identify_chart_blocks] never returns an empty list; with a
    session open it returns, unless the agent's run is cut by an exception
    that is no [Exception]; and no run ever prints the message of the
    "no chart blocks found" branch. *)
Theorem identify_chart_blocks_nonempty env :
  (forall st blocks st',
     identify_chart_blocks env st = (Returns blocks, st') -> blocks <> []) /\
  (forall st s,
     browser_session st = Some s ->
     (forall e, (agent_run env (ticks st)).2 = Raises e -> is_Exception e = true) ->
     exists blocks, (identify_chart_blocks env st).1 = Returns blocks /\ blocks <> []) /\
  (forall fuel st,
     Print MsgNoBlocksExit ∉ trace st ->
     Print MsgNoBlocksExit ∉ trace (run_monitoring_loop env fuel st).2).
Proof.
  split; [|split].
  - apply identify_never_empty.
  - intros st s Hs He. rewrite (identify_with_session _ _ _ Hs).
    destruct (agent_run env (ticks st)).2 as [[]|e].
    + eexists. split; [done|]. apply chosen_blocks_nonempty.
    + rewrite (He e eq_refl). eexists. split; [done|]. apply chosen_blocks_nonempty.
  - intros fuel st. apply evolves_not_in with (P := fun ev => ev <> Print MsgNoBlocksExit).
    + apply evolves_run.
      * by intros ev Hev ->.
      * done.
    + by intros H.
Qed.

(** The session is opened before anything of the login wait can fail. *)
Lemma wait_for_login_opens env st :
  is_Some (browser_session (wait_for_login env st).2).
Proof.
  unfold wait_for_login, bind, print, modify, get, on_session, call,
    printed, emitted, called. simpl.
  destruct (browser_goto env _ _) as [[]|]; simpl; [|by eexists].
  destruct (asyncio_sleep env _ _) as [[]|]; simpl; [|by eexists].
  destruct (console_input env _); simpl; by eexists.
Qed.

Lemma bind_get_run {A} (k : State -> M A) st : (bind get k) st = k st st.
Proof. reflexivity. Qed.

Lemma bind_print_in {B} P m (k : unit -> M B) st :
  steady P (k tt) -> Print m ∈ trace ((bind (print m) k) st).2.
Proof.
  intros Hk. unfold bind, print. simpl.
  destruct (Hk (printed m st)) as [_ _ _ _ _ _ (new & -> & _)].
  simpl. rewrite <- app_assoc. apply elem_of_app. right. apply list_elem_of_here.
Qed.

(** Every turn of the loop starts with its header. *)
Lemma cycle_body_header env blocks cycle st :
  Print (MsgCycleHeader cycle) ∈ trace (cycle_body env blocks cycle st).2.
Proof.
  unfold cycle_body. rewrite bind_get_run.
  apply bind_print_in with (P := fun ev => ordinary ev = true).
  assert (forall ev, ordinary ev = true -> ordinary ev = true) as HP by done.
  repeat steady_step HP.
  - by apply steady_on_session.
  - by apply steady_call_oracle.
  - by apply steady_capture.
  - by apply steady_call_oracle.
Qed.

Lemma monitoring_cycles_header env fuel blocks cycle st e st' :
  monitoring_cycles env fuel blocks cycle st = (Some e, st') ->
  Print (MsgCycleHeader cycle) ∈ trace st'.
Proof.
  destruct fuel as [|fuel]; [done|]. simpl.
  pose proof (cycle_body_header env blocks cycle st) as Hh.
  destruct (cycle_body env blocks cycle st) as [[[]|e'] st1]; simpl in Hh.
  - intros H.
    pose proof (evolves_monitoring_cycles env (fun _ => True) (fun _ _ => I) (fun _ => I)
                  fuel blocks (S cycle) st1) as [_ _ _ _ _ _ (new & Hnew & _)].
    rewrite H in Hnew. simpl in Hnew. rewrite Hnew. apply elem_of_app. by left.
  - by intros [= <- <-].
Qed.

(** An exit after the loop was entered ends with the [finally] clause. *)
Lemma run_exit_last_events env fuel st r st' :
  run_monitoring_loop env fuel st = (Some r, st') ->
  Print (MsgCycleHeader 1) ∉ trace st ->
  Print (MsgCycleHeader 1) ∈ trace st' ->
  exists before m,
    (m = MsgSaved (Path.str (metadata_file st')) \/ exists e, m = MsgSaveFailed e) /\
    trace st' =
      before ++
        [WriteFile (Path.str (metadata_file st'))
           (JArr (map model_dump (metadata_list st')));
         Print m;
         Print (MsgTotals (length (metadata_list st')) (Path.str (screenshot_dir st'))
                  (Path.str (metadata_file st')));
         CloseBrowser].
Proof.
  intros Hrun Hfresh Hentered.
  set (P := fun ev => ev <> Print (MsgCycleHeader 1)).
  assert (forall ev, ordinary ev = true -> P ev) as HP by (by intros ev Hev ->).
  assert (~ P (Print (MsgCycleHeader 1))) as HnP by (by intros H).
  unfold run_monitoring_loop in Hrun.
  destruct (banner_overflows (interval_seconds st)).
  { inversion Hrun; subst. exfalso.
    eapply evolves_not_in; [|exact HnP|exact Hfresh|exact Hentered].
    by apply evolves_emitted, HP. }
  set (st0 := announced st) in Hrun.
  assert (evolves P st st0) as H0 by (by apply evolves_emitted, HP).
  pose proof (steady_wait_for_login env P HP st0) as H1.
  destruct (wait_for_login env st0) as [[b|e] st1] eqn:Hlogin; simpl in H1.
  2: { inversion Hrun; subst. exfalso.
       eapply evolves_not_in; [|exact HnP|exact Hfresh|exact Hentered].
       by eapply evolves_trans. }
  destruct (wait_for_login_true _ _ _ _ Hlogin) as [-> Hs].
  pose proof (steady_identify env P HP st1) as H2.
  destruct (identify_chart_blocks env st1) as [[blocks|e] st2] eqn:Hid; simpl in H2.
  2: { inversion Hrun; subst. exfalso.
       eapply evolves_not_in; [|exact HnP|exact Hfresh|exact Hentered].
       eapply evolves_trans; [exact H0|]. by eapply evolves_trans. }
  destruct blocks as [|b blocks]; [by destruct (identify_never_empty _ _ _ _ Hid)|].
  pose proof (evolves_monitoring_cycles env (fun _ => True) (fun _ _ => I) (fun _ => I)
                fuel (b :: blocks) 1 st2) as H3.
  pose proof (steady_identify env (fun _ => True) (fun _ _ => I) st1) as H2'.
  rewrite Hid in H2'. simpl in H2'.
  destruct (monitoring_cycles env fuel (b :: blocks) 1 st2) as [[e|] st3];
    simpl in H3; [|done].
  assert (is_Some (browser_session st3)) as [s Hs3].
  { apply H3, H2', Hs. }
  unfold bind in Hrun.
  destruct (loop_handlers_run e st3) as (st3' & Hh & Hl & Hb & Hd & Hf & Htr).
  rewrite Hh in Hrun. rewrite <- Hb in Hs3.
  destruct (finally_clause_run env st3' s Hs3)
    as (st4 & m & Hfin & Hl4 & Hd4 & Hf4 & Hm & Htr4).
  rewrite Hfin in Hrun.
  assert (st' = st4) as ->.
  { destruct (browser_close env (S (ticks st3'))); by inversion Hrun. }
  exists (trace st3'), m. rewrite Hl4, Hd4, Hf4. by split.
Qed.

Lemma run_overflow env fuel st :
  banner_overflows (interval_seconds st) = true ->
  run_monitoring_loop env fuel st =
    (Some (Raises (Exception "OverflowError")),
     printed (MsgStartBannerHead (target_url st)) st).
Proof. intros H. unfold run_monitoring_loop. by rewrite H. Qed.

Lemma staging_no_cleanup ev : staging ev = true -> cleanup_event ev = false.
Proof. by destruct ev. Qed.

Lemma run_login_raises env fuel st e st1 :
  banner_overflows (interval_seconds st) = false ->
  wait_for_login env (announced st) = (Raises e, st1) ->
  run_monitoring_loop env fuel st = (Some (Raises e), st1) /\
  is_Some (browser_session st1) /\
  evolves (fun ev => cleanup_event ev = false) st st1.
Proof.
  intros Hov Hlogin. unfold run_monitoring_loop. rewrite Hov. cbv zeta.
  rewrite Hlogin. split; [done|]. split.
  - pose proof (wait_for_login_opens env (announced st)) as H.
    by rewrite Hlogin in H.
  - apply evolves_trans with (announced st); [by apply evolves_emitted|].
    pose proof (staged_wait_for_login env _ staging_no_cleanup (announced st)) as H.
    by rewrite Hlogin in H.
Qed.

Lemma run_discovery_raises env fuel st st1 e st2 :
  banner_overflows (interval_seconds st) = false ->
  wait_for_login env (announced st) = (Returns true, st1) ->
  identify_chart_blocks env st1 = (Raises e, st2) ->
  run_monitoring_loop env fuel st = (Some (Raises e), st2) /\
  is_Some (browser_session st2) /\
  evolves (fun ev => cleanup_event ev = false) st st2.
Proof.
  intros Hov Hlogin Hid. unfold run_monitoring_loop. rewrite Hov. cbv zeta.
  rewrite Hlogin, Hid. split; [done|].
  pose proof (staged_wait_for_login env _ staging_no_cleanup (announced st)) as H1.
  rewrite Hlogin in H1. simpl in H1.
  pose proof (staged_identify env _ staging_no_cleanup st1) as H2.
  rewrite Hid in H2. simpl in H2.
  split.
  - apply H2. by destruct (wait_for_login_true _ _ _ _ Hlogin).
  - apply evolves_trans with (announced st); [by apply evolves_emitted|]. by eapply evolves_trans.
Qed.

(** An exit that never entered the loop is an exception let through. *)
Lemma run_exit_before_loop env fuel st r st' :
  run_monitoring_loop env fuel st = (Some r, st') ->
  Print (MsgCycleHeader 1) ∉ trace st' ->
  exists e, r = Raises e /\ evolves (fun ev => cleanup_event ev = false) st st'.
Proof.
  intros Hrun Hout.
  destruct (banner_overflows (interval_seconds st)) eqn:Hov.
  { rewrite (run_overflow _ _ _ Hov) in Hrun. inversion Hrun; subst.
    eexists. split; [done|]. by apply evolves_emitted. }
  destruct (wait_for_login env (announced st)) as [[b|e] st1] eqn:Hlogin.
  2: { destruct (run_login_raises env fuel _ _ _ Hov Hlogin) as (Hr & _ & Hev).
       rewrite Hr in Hrun. inversion Hrun; subst. by eexists. }
  destruct (wait_for_login_true _ _ _ _ Hlogin) as [-> Hs].
  destruct (identify_chart_blocks env st1) as [[blocks|e] st2] eqn:Hid.
  2: { destruct (run_discovery_raises env fuel _ _ _ _ Hov Hlogin Hid) as (Hr & _ & Hev).
       rewrite Hr in Hrun. inversion Hrun; subst. by eexists. }
  exfalso. unfold run_monitoring_loop in Hrun. rewrite Hov in Hrun. cbv zeta in Hrun.
  rewrite Hlogin, Hid in Hrun.
  destruct blocks as [|b blocks]; [by destruct (identify_never_empty _ _ _ _ Hid)|].
  destruct (monitoring_cycles env fuel (b :: blocks) 1 st2) as [[e|] st3] eqn:Hloop;
    [|done].
  apply monitoring_cycles_header in Hloop.
  assert (steady (fun _ => True) (loop_handlers e;; finally_clause env)) as H4.
  { apply steady_bind; [by apply steady_loop_handlers|].
    intros _. by apply steady_finally. }
  destruct (H4 st3) as [_ _ _ _ _ _ (new & Hnew & _)].
  apply Hout.
  assert (st' = ((loop_handlers e;; finally_clause env) st3).2) as ->.
  { destruct ((loop_handlers e;; finally_clause env) st3) as [[[]|e'] st4];
      by inversion Hrun. }
  rewrite Hnew. apply elem_of_app. by left.
Qed.


(** ** The capture cycle *)

Lemma screenshots_app l1 l2 : screenshots (l1 ++ l2) = screenshots l1 ++ screenshots l2.
Proof. apply omap_app. Qed.

Lemma is_digit_digit n : is_digit (digit n) = true.
Proof.
  unfold digit.
  destruct (n mod 10) as [|[|[|[|[|[|[|[|[|[|k]]]]]]]]]]; reflexivity.
Qed.

Lemma stamp_shape_strftime d : stamp_shape (strftime d) = true.
Proof.
  unfold strftime, pad4, pad2, stamp_shape. simpl.
  by rewrite !is_digit_digit.
Qed.

Lemma list_ascii_of_append s1 s2 :
  list_ascii_of_string (s1 +:+ s2) = list_ascii_of_string s1 ++ list_ascii_of_string s2.
Proof. induction s1 as [|c s1 IH]; simpl; [done|]. by rewrite IH. Qed.

Lemma append_inj_tail s1 s2 tl : s1 +:+ tl = s2 +:+ tl -> s1 = s2.
Proof.
  intros H. apply (f_equal list_ascii_of_string) in H.
  rewrite !list_ascii_of_append in H. apply app_inv_tail in H.
  apply (f_equal string_of_list_ascii) in H.
  by rewrite !string_of_list_ascii_of_string in H.
Qed.

Section Capture.

Variable env : Env.

Lemma get_current_url_state st s :
  browser_session st = Some s ->
  (_get_current_url env st).2 = called GetState st.
Proof.
  intros Hs. unfold _get_current_url, bind, get, try_except, call. rewrite Hs.
  destruct (browser_get_state env (ticks st)) as [|e]; [done|].
  by destruct (is_Exception e).
Qed.

Variables timestamp_iso timestamp_safe current_url : string.

(** One turn of the [for] loop, written out. *)
Lemma capture_block_unfold b st s :
  browser_session st = Some s ->
  let filepath := Path.truediv (screenshot_dir st) (block_filename b timestamp_safe) in
  let st1 := called (ScreenshotElement (selector b) (Path.str filepath)) st in
  capture_block env timestamp_iso timestamp_safe current_url b st =
    match browser_screenshot_element env (ticks st) (selector b) (Path.str filepath) with
    | Returns _ =>
        if Path.is_absolute filepath
        then (Returns tt, printed (MsgBlockFailed (name b) (Exception "ValueError")) st1)
        else (Returns tt,
              printed (MsgBlockOk (name b) (Path.str filepath))
                (set_metadata_list
                   (metadata_list st ++ [record_of timestamp_iso timestamp_safe current_url (screenshot_dir st) b]) st1))
    | Raises e =>
        if is_Exception e
        then (Returns tt, printed (MsgBlockFailed (name b) e) st1)
        else (Raises e, st1)
    end.
Proof.
  intros Hs. simpl.
  unfold capture_block, on_session, try_except, bind, get, call, raise, print,
    modify, Path.relative_to_dot.
  simpl. rewrite Hs. simpl.
  destruct (browser_screenshot_element env _ _ _) as [[]|e]; [|done].
  by destruct (Path.is_absolute _).
Qed.

(** What one turn leaves behind, whatever the browser answers. *)
Lemma capture_block_step b st s :
  browser_session st = Some s ->
  exists r st',
    capture_block env timestamp_iso timestamp_safe current_url b st = (r, st') /\
    browser_session st' = Some s /\
    screenshot_dir st' = screenshot_dir st /\
    ticks st' = S (ticks st) /\
    screenshots (trace st') =
      screenshots (trace st) ++ [request_of timestamp_safe (screenshot_dir st) b] /\
    (metadata_list st' = metadata_list st \/
     metadata_list st' = metadata_list st ++ [record_of timestamp_iso timestamp_safe current_url (screenshot_dir st) b]).
Proof.
  intros Hs. rewrite (capture_block_unfold b st s Hs).
  destruct (browser_screenshot_element env _ _ _) as [[]|e].
  - destruct (Path.is_absolute _); eexists _, _; (split; [reflexivity|]); simpl;
      rewrite !screenshots_app; simpl; rewrite ?app_nil_r; auto 10.
  - destruct (is_Exception e); eexists _, _; (split; [reflexivity|]); simpl;
      rewrite !screenshots_app; simpl; rewrite ?app_nil_r; auto 10.
Qed.

(** The [for] loop: requests are made for a prefix of the blocks, in
    order (all of them when the loop ends normally), and the records
    appended are those of some of these blocks, in order. *)
Lemma capture_loop blocks st s :
  browser_session st = Some s ->
  exists r st' done new,
    for_each blocks (capture_block env timestamp_iso timestamp_safe current_url) st
      = (r, st') /\
    browser_session st' = Some s /\
    screenshot_dir st' = screenshot_dir st /\
    done `prefix_of` blocks /\
    (r = Returns tt -> done = blocks) /\
    screenshots (trace st') =
      screenshots (trace st) ++ map (request_of timestamp_safe (screenshot_dir st)) done /\
    metadata_list st' = metadata_list st ++ new /\
    new `sublist_of` map (record_of timestamp_iso timestamp_safe current_url (screenshot_dir st)) done.
Proof.
  revert st. induction blocks as [|b blocks IH]; intros st Hs; simpl.
  - exists (Returns tt), st, [], []. rewrite !app_nil_r. repeat split; done.
  - destruct (capture_block_step b st s Hs) as (r & st1 & Hrun & Hs1 & Hd1 & _ & Hsh & Hl).
    unfold bind. rewrite Hrun. destruct r as [[]|e].
    + destruct (IH st1 Hs1) as (r' & st' & done & new & Hrun' & Hs' & Hd' & Hp & Hr & Hsh' & Hl' & Hsub).
      rewrite Hrun'. rewrite Hd1 in *.
      exists r', st', (b :: done).
      destruct Hl as [Hl|Hl].
      * exists new. rewrite Hsh', Hsh, Hl', Hl, Hd', <- app_assoc. simpl.
        repeat split; try done.
        -- by apply prefix_cons.
        -- intros Hret. by rewrite Hr.
        -- by apply sublist_cons.
      * exists (record_of timestamp_iso timestamp_safe current_url (screenshot_dir st) b :: new).
        rewrite Hsh', Hsh, Hl', Hl, Hd', <- !app_assoc. simpl.
        repeat split; try done.
        -- by apply prefix_cons.
        -- intros Hret. by rewrite Hr.
        -- by apply sublist_skip.
    + exists (Raises e), st1, [b].
      destruct Hl as [Hl|Hl].
      * exists []. rewrite Hsh, Hl, app_nil_r.
        repeat split; try done.
        -- by apply prefix_cons, prefix_nil.
        -- apply sublist_nil_l.
      * exists [record_of timestamp_iso timestamp_safe current_url (screenshot_dir st) b]. rewrite Hsh, Hl.
        repeat split; try done.
        by apply prefix_cons, prefix_nil.
Qed.

End Capture.

Section Cycle.

Variable env : Env.

(** A whole call of [capture_block_screenshots] with a session open. *)
Lemma capture_cycle blocks st s :
  browser_session st = Some s ->
  let timestamp_iso := isoformat (clock env (ticks st)) in
  let timestamp_safe := strftime (clock env (S (ticks st))) in
  exists r st' current_url done new,
    capture_block_screenshots env blocks st = (r, st') /\
    done `prefix_of` blocks /\
    (r = Returns tt -> done = blocks) /\
    screenshots (trace st') =
      screenshots (trace st) ++
      map (request_of timestamp_safe (screenshot_dir st)) done /\
    metadata_list st' = metadata_list st ++ new /\
    new `sublist_of`
      map (record_of timestamp_iso timestamp_safe current_url (screenshot_dir st)) done.
Proof.
  intros Hs. simpl.
  unfold capture_block_screenshots, bind, get, now. simpl. rewrite Hs. simpl.
  match goal with
  | |- context [_get_current_url env ?x] => set (st2 := x)
  end.
  pose proof (get_current_url_state env st2 s Hs) as Hst3.
  destruct (_get_current_url env st2) as [[u|e] st3]; simpl in Hst3; subst st3.
  - match goal with
    | |- context [for_each blocks ?body ?x] =>
        destruct (capture_loop env (isoformat (clock env (ticks st)))
                    (strftime (clock env (S (ticks st)))) u blocks x s Hs)
          as (r & st4 & done & new & Hrun & Hs4 & Hd4 & Hp & Hr & Hsh & Hl & Hsub)
    end.
    unfold print, modify. simpl. simpl in Hrun, Hsh, Hl, Hd4, Hsub.
    rewrite Hrun. destruct r as [[]|e].
    + destruct (save_metadata_always env st4)
        as (st5 & m & Hsave & Hl5 & _ & _ & _ & _ & _ & Htr5).
      rewrite Hsave. simpl.
      exists (Returns tt), (printed (MsgCycleCompleted (length (metadata_list st5))) st5),
        u, done, new.
      split; [done|]. simpl. rewrite Htr5, Hl5, Hl.
      rewrite !screenshots_app, Hsh, !screenshots_app. simpl.
      rewrite !app_nil_r. done.
    + exists (Raises e), st4, u, done, new.
      rewrite Hsh, !screenshots_app, Hl. simpl. rewrite !app_nil_r.
      repeat split; done.
  - eexists (Raises e), _, "", [], []. split; [done|]. simpl.
    rewrite !screenshots_app. simpl. rewrite !app_nil_r.
    repeat split; try done. apply prefix_nil.
Qed.

End Cycle.

(** C7: in one call of [capture_block_screenshots] the screenshot
    requests go, block by block in list order, to the file
    [{name}_{stamp}.png] under the screenshot directory, where [stamp] is
    one and the same for all blocks, read once from the clock and of the
    shape [YYYYMMDD_HHMMSS]; so two file names of the cycle differ exactly
    when the block names do. *)
Theorem cycle_filenames env blocks st s :
  browser_session st = Some s ->
  let stamp := strftime (clock env (S (ticks st))) in
  let file b := name b +:+ "_" +:+ stamp +:+ ".png" in
  stamp_shape stamp = true /\
  (exists done,
     done `prefix_of` blocks /\
     ((capture_block_screenshots env blocks st).1 = Returns tt -> done = blocks) /\
     screenshots (trace (capture_block_screenshots env blocks st).2) =
       screenshots (trace st) ++
       map (fun b => (selector b, Path.str (Path.truediv (screenshot_dir st) (file b))))
           done) /\
  (forall b1 b2, file b1 = file b2 <-> name b1 = name b2).
Proof.
  intros Hs. simpl. split; [apply stamp_shape_strftime|]. split.
  - destruct (capture_cycle env blocks st s Hs)
      as (r & st' & u & done & new & Hrun & Hp & Hr & Hsh & _).
    exists done. rewrite Hrun. simpl. by repeat split.
  - intros b1 b2. split.
    + apply append_inj_tail.
    + by intros ->.
Qed.

(** ** The metadata list only grows *)

Lemma steady_appends_only {A} (m : M A) : steady (fun _ => True) m -> appends_only m.
Proof. intros H st. apply H. Qed.

Lemma capture_appends_in_order env blocks st :
  exists new,
    metadata_list (capture_block_screenshots env blocks st).2 = metadata_list st ++ new /\
    map block_name new `sublist_of` map name blocks.
Proof.
  destruct (browser_session st) as [s|] eqn:Hs.
  - destruct (capture_cycle env blocks st s Hs)
      as (r & st' & u & done & new & Hrun & [rest ->] & _ & _ & Hl & Hsub).
    exists new. rewrite Hrun. split; [done|].
    apply (fmap_sublist block_name) in Hsub.
    rewrite map_app. apply sublist_inserts_r.
    etrans; [exact Hsub|]. clear.
    induction done as [|b done IH]; simpl; [done|]. by apply sublist_skip.
  - exists []. unfold capture_block_screenshots, bind, get. simpl. rewrite Hs. simpl.
    rewrite app_nil_r. split; [done|]. apply sublist_nil_l.
Qed.

(** C8: the operations of a run only append to the metadata list: the
    list before is a prefix of the list after, so no record is changed or
    removed and the length never decreases; a capture cycle appends its
    records in the order of the blocks; and a save that succeeds leaves
    the list alone and replaces the file by the whole list. The load of
    [__init__] starts from the empty list. *)
Theorem metadata_list_only_grows env :
  (forall target dir file interval disk0 st,
     __init__ env target dir file interval disk0 = Returns st ->
     exists st0, metadata_list st0 = [] /\ st = (_load_metadata st0).2) /\
  appends_only (wait_for_login env) /\
  appends_only (identify_chart_blocks env) /\
  appends_only (_get_current_url env) /\
  appends_only (_save_metadata env) /\
  (forall blocks, appends_only (capture_block_screenshots env blocks)) /\
  (forall fuel st,
     metadata_list st `prefix_of` metadata_list (run_monitoring_loop env fuel st).2 /\
     length (metadata_list st) <= length (metadata_list (run_monitoring_loop env fuel st).2)) /\
  (forall blocks st,
     exists new,
       metadata_list (capture_block_screenshots env blocks st).2 = metadata_list st ++ new /\
       map block_name new `sublist_of` map name blocks) /\
  (forall st,
     file_write env (ticks st) = WriteOk ->
     metadata_list (_save_metadata env st).2 = metadata_list st /\
     disk (_save_metadata env st).2 =
       Some (Document (JArr (map model_dump (metadata_list st))))).
Proof.
  assert (forall ev, ordinary ev = true -> (fun _ : event => True) ev) as HP by done.
  repeat apply conj.
  - intros target dir file interval disk0 st. unfold __init__, bind, call.
    destruct (mkdir env _) as [[]|e]; [|done].
    match goal with
    | |- context [_load_metadata ?x] =>
        destruct (_load_metadata x) as [[[]|e] st'] eqn:Hload
    end; [|done].
    intros [= <-].
    eexists. split; [|by rewrite Hload]. reflexivity.
  - by apply steady_appends_only, steady_wait_for_login.
  - by apply steady_appends_only, steady_identify.
  - by apply steady_appends_only, steady_get_current_url.
  - by apply steady_appends_only, steady_save.
  - intros blocks. by apply steady_appends_only, steady_capture.
  - intros fuel st.
    assert (metadata_list st `prefix_of` metadata_list (run_monitoring_loop env fuel st).2)
      as H by (by apply (evolves_run env (fun _ => True))).
    split; [done|]. by apply prefix_length.
  - apply capture_appends_in_order.
  - intros st Hw. by rewrite (save_metadata_ok env st Hw).
Qed.

(** ** One failing block in a cycle *)

Lemma parse_root_relative s : starts_with_slash s = false -> Path.parse_root s = "".
Proof.
  destruct s as [|c s]; [done|]. simpl. intros H.
  destruct c as [[] [] [] [] [] [] [] []]; try done.
Qed.

Lemma block_filename_relative b stamp :
  starts_with_slash (name b) = false ->
  Path.is_absolute (Path.of_string (block_filename b stamp)) = false.
Proof.
  intros H. unfold Path.is_absolute, Path.of_string. simpl.
  rewrite parse_root_relative; [done|].
  unfold block_filename. by destruct (name b).
Qed.

Lemma truediv_absolute dir s :
  Path.is_absolute dir = true -> Path.is_absolute (Path.truediv dir s) = true.
Proof.
  intros H. unfold Path.truediv.
  by destruct (Path.is_absolute (Path.of_string s)) eqn:Hs.
Qed.

Lemma truediv_relative dir s :
  Path.is_absolute dir = false ->
  Path.is_absolute (Path.of_string s) = false ->
  Path.is_absolute (Path.truediv dir s) = false.
Proof. intros Hd Hs. unfold Path.truediv. by rewrite Hs. Qed.

Lemma for_each_app {A} (l1 l2 : list A) body st :
  for_each (l1 ++ l2) body st =
    match for_each l1 body st with
    | (Returns _, st') => for_each l2 body st'
    | (Raises e, st') => (Raises e, st')
    end.
Proof.
  revert st. induction l1 as [|x l1 IH]; intros st; simpl; [done|].
  unfold bind. destruct (body x st) as [[[]|e] st']; [apply IH|done].
Qed.

Section OneFailure.

Variable env : Env.
Variables timestamp_iso timestamp_safe current_url : string.

Local Abbreviation turn := (capture_block env timestamp_iso timestamp_safe current_url).
Local Abbreviation request b st :=
  (Path.str (Path.truediv (screenshot_dir st) (block_filename b timestamp_safe))).

(** Under an absolute screenshot directory no turn appends a record. *)
Lemma capture_loop_absolute blocks st s :
  browser_session st = Some s ->
  Path.is_absolute (screenshot_dir st) = true ->
  metadata_list (for_each blocks turn st).2 = metadata_list st.
Proof.
  revert st. induction blocks as [|b blocks IH]; intros st Hs Habs; simpl; [done|].
  unfold bind. rewrite (capture_block_unfold _ _ _ _ _ _ _ Hs).
  rewrite truediv_absolute by done.
  destruct (browser_screenshot_element env _ _ _) as [[]|e].
  - by rewrite IH.
  - destruct (is_Exception e); [|done]. by rewrite IH.
Qed.

(** A turn whose screenshot returns, on a relative path. *)
Lemma capture_block_returns b st s :
  browser_session st = Some s ->
  Path.is_absolute (screenshot_dir st) = false ->
  starts_with_slash (name b) = false ->
  browser_screenshot_element env (ticks st) (selector b) (request b st) = Returns tt ->
  exists st',
    turn b st = (Returns tt, st') /\
    browser_session st' = Some s /\
    screenshot_dir st' = screenshot_dir st /\
    ticks st' = S (ticks st) /\
    metadata_list st' =
      metadata_list st ++
      [record_of timestamp_iso timestamp_safe current_url (screenshot_dir st) b].
Proof.
  intros Hs Hd Hn Ho. rewrite (capture_block_unfold _ _ _ _ _ _ _ Hs), Ho.
  rewrite truediv_relative by auto using block_filename_relative.
  eexists. split; [reflexivity|]. done.
Qed.

(** A turn whose screenshot raises an [Exception]. *)
Lemma capture_block_fails b st s cls :
  browser_session st = Some s ->
  browser_screenshot_element env (ticks st) (selector b) (request b st)
    = Raises (Exception cls) ->
  exists st',
    turn b st = (Returns tt, st') /\
    browser_session st' = Some s /\
    screenshot_dir st' = screenshot_dir st /\
    ticks st' = S (ticks st) /\
    metadata_list st' = metadata_list st.
Proof.
  intros Hs Ho. rewrite (capture_block_unfold _ _ _ _ _ _ _ Hs), Ho.
  eexists. split; [reflexivity|]. done.
Qed.

(** A run of turns whose screenshots all return. *)
Lemma capture_loop_returns blocks st s :
  browser_session st = Some s ->
  Path.is_absolute (screenshot_dir st) = false ->
  Forall (fun b => starts_with_slash (name b) = false) blocks ->
  (forall i b, blocks !! i = Some b ->
     browser_screenshot_element env (ticks st + i) (selector b) (request b st)
       = Returns tt) ->
  exists st',
    for_each blocks turn st = (Returns tt, st') /\
    browser_session st' = Some s /\
    screenshot_dir st' = screenshot_dir st /\
    ticks st' = ticks st + length blocks /\
    metadata_list st' =
      metadata_list st ++
      map (record_of timestamp_iso timestamp_safe current_url (screenshot_dir st)) blocks.
Proof.
  revert st. induction blocks as [|b blocks IH]; intros st Hs Hd Hn Ho; simpl.
  - exists st. rewrite app_nil_r, Nat.add_0_r. done.
  - inversion Hn as [|? ? Hb Hn']; subst.
    destruct (capture_block_returns b st s Hs Hd Hb) as (st1 & Hrun & Hs1 & Hd1 & Ht1 & Hl1).
    { specialize (Ho 0 b eq_refl). by rewrite Nat.add_0_r in Ho. }
    destruct (IH st1) as (st' & Hrun' & Hs' & Hd' & Ht' & Hl'); try done.
    { by rewrite Hd1. }
    { intros i b' Hi. rewrite Ht1, Hd1. specialize (Ho (S i) b' Hi).
      by rewrite Nat.add_succ_r in Ho. }
    exists st'. unfold bind. rewrite Hrun, Hrun', Hs', Hd', Ht', Hl', Hd1, Hl1, Ht1.
    rewrite <- app_assoc. repeat split; try done. lia.
Qed.

End OneFailure.

Lemma get_current_url_returns env st :
  (forall e, browser_get_state env (ticks st) = Raises e -> is_Exception e = true) ->
  exists current_url, (_get_current_url env st).1 = Returns current_url.
Proof.
  intros He. unfold _get_current_url, bind, get, try_except, call, ret. simpl.
  destruct (browser_session st); [|by eexists].
  destruct (browser_get_state env (ticks st)) as [u|e]; [by eexists|].
  rewrite (He e eq_refl). by eexists.
Qed.

(** X12: on relative paths one failing block costs one record only.
    With a relative screenshot directory and block names that do not
    begin with a slash, a cycle in which the screenshot of one block
    raises an [Exception] and those of the other blocks return runs to
    its end and appends the records of all the other blocks, in list
    order. *)
Lemma capture_cycle_one_failure env pre bad post st s cls :
  browser_session st = Some s ->
  Path.is_absolute (screenshot_dir st) = false ->
  Forall (fun b => starts_with_slash (name b) = false) (pre ++ post) ->
  (forall e, browser_get_state env (S (S (ticks st))) = Raises e -> is_Exception e = true) ->
  let timestamp_iso := isoformat (clock env (ticks st)) in
  let timestamp_safe := strftime (clock env (S (ticks st))) in
  let request b :=
    Path.str (Path.truediv (screenshot_dir st) (block_filename b timestamp_safe)) in
  let t0 := S (S (S (ticks st))) in
  (forall i b, pre !! i = Some b ->
     browser_screenshot_element env (t0 + i) (selector b) (request b) = Returns tt) ->
  browser_screenshot_element env (t0 + length pre) (selector bad) (request bad)
    = Raises (Exception cls) ->
  (forall i b, post !! i = Some b ->
     browser_screenshot_element env (S (t0 + length pre) + i) (selector b) (request b)
       = Returns tt) ->
  exists st' current_url,
    capture_block_screenshots env (pre ++ bad :: post) st = (Returns tt, st') /\
    metadata_list st' =
      metadata_list st ++
      map (record_of timestamp_iso timestamp_safe current_url (screenshot_dir st))
          (pre ++ post).
Proof.
  intros Hs Hd Hn Hstate. simpl. intros Hpre Hbad Hpost.
  apply Forall_app in Hn as [Hn1 Hn2].
  unfold capture_block_screenshots, bind, get, now. simpl. rewrite Hs. simpl.
  match goal with
  | |- context [_get_current_url env ?x] => set (st2 := x)
  end.
  pose proof (get_current_url_state env st2 s Hs) as Hst3.
  destruct (get_current_url_returns env st2 Hstate) as [u Hu].
  destruct (_get_current_url env st2) as [r st3]; simpl in Hst3, Hu; subst r st3.
  unfold print, modify. simpl. rewrite for_each_app.
  match goal with
  | |- context [for_each pre ?body ?x] =>
      destruct (capture_loop_returns env (isoformat (clock env (ticks st)))
                  (strftime (clock env (S (ticks st)))) u pre x s)
        as (st4 & Hrun4 & Hs4 & Hd4 & Ht4 & Hl4); try done
  end.
  simpl in *. rewrite Hrun4. unfold bind.
  destruct (capture_block_fails env (isoformat (clock env (ticks st)))
              (strftime (clock env (S (ticks st)))) u bad st4 s cls)
    as (st5 & Hrun5 & Hs5 & Hd5 & Ht5 & Hl5); try done.
  { by rewrite Ht4, Hd4. }
  rewrite Hrun5.
  destruct (capture_loop_returns env (isoformat (clock env (ticks st)))
              (strftime (clock env (S (ticks st)))) u post st5 s)
    as (st6 & Hrun6 & Hs6 & Hd6 & Ht6 & Hl6); try done.
  { by rewrite Hd5, Hd4. }
  { intros i b Hi. rewrite Ht5, Ht4, Hd5, Hd4. by apply Hpost. }
  rewrite Hrun6.
  destruct (save_metadata_always env st6) as (st7 & m & Hsave & Hl7 & _).
  rewrite Hsave. simpl. eexists _, u. split; [reflexivity|]. simpl.
  rewrite Hl7, Hl6, Hl5, Hl4, Hd5, Hd4, map_app, app_assoc. done.
Qed.

(** X13: with an absolute screenshot directory a cycle appends no
    record, whatever the browser answers: line 260 raises on every
    block, after the screenshot has been taken. *)
Lemma capture_cycle_absolute env blocks st :
  Path.is_absolute (screenshot_dir st) = true ->
  metadata_list (capture_block_screenshots env blocks st).2 = metadata_list st.
Proof.
  intros Habs. destruct (browser_session st) as [s|] eqn:Hs.
  - unfold capture_block_screenshots, bind, get, now. simpl. rewrite Hs. simpl.
    match goal with
    | |- context [_get_current_url env ?x] => set (st2 := x)
    end.
    pose proof (get_current_url_state env st2 s Hs) as Hst3.
    destruct (_get_current_url env st2) as [[u|e] st3]; simpl in Hst3; subst st3;
      [|done].
    unfold print, modify. simpl.
    match goal with
    | |- context [for_each blocks ?body ?x] =>
        pose proof (capture_loop_absolute env (isoformat (clock env (ticks st)))
                      (strftime (clock env (S (ticks st)))) u blocks x s Hs Habs)
          as Hloop;
        destruct (for_each blocks body x) as [[[]|e] st4]
    end; simpl in Hloop; [|done].
    destruct (save_metadata_always env st4) as (st5 & m & Hsave & Hl5 & _).
    rewrite Hsave. simpl. by rewrite Hl5.
  - unfold capture_block_screenshots, bind, get. simpl. by rewrite Hs.
Qed.

Ltac not_in_list :=
  let H := fresh "H" in
  intros H;
  repeat (apply elem_of_cons in H as [H|H]; [discriminate H|]);
  by apply elem_of_nil in H.

Ltac in_list :=
  repeat first [ apply list_elem_of_here | apply list_elem_of_further ].

(** A save whose write fails, then a load: the list is not given back. *)
Lemma failed_write_breaks_roundtrip :
  let st := logged_in "screenshots" [first_record] None in
  (_save_metadata unwritable st).1 = Returns tt /\
  (_load_metadata (_save_metadata unwritable st).2).1 = Returns tt /\
  metadata_list (_load_metadata (_save_metadata unwritable st).2).2 = [] /\
  metadata_list (_load_metadata (_save_metadata unwritable st).2).2 <> metadata_list st.
Proof.
  cbv zeta. split; [reflexivity|]. split; [reflexivity|]. split; [reflexivity|].
  intros H. vm_compute in H. discriminate H.
Qed.

Lemma save_load_roundtrip_witness :
  let st := logged_in "screenshots" [first_record] None in
  let longer := set_metadata_list (metadata_list st ++ [second_record]) st in
  let reader saved :=
    set_disk (disk (_save_metadata calm saved).2)
             (logged_in "elsewhere" [second_record] None) in
  file_write calm (ticks st) = WriteOk /\
  metadata_list (reader st) = [second_record] /\
  ((_load_metadata (reader st)).1 = Returns tt /\
   metadata_list (_load_metadata (reader st)).2 = [first_record]) /\
  ((_load_metadata (reader longer)).1 = Returns tt /\
   metadata_list (_load_metadata (reader longer)).2 = [first_record; second_record]).
Proof.
  destruct (save_load_roundtrip calm (logged_in "screenshots" [first_record] None) eq_refl)
    as (_ & _ & Hload & Happended).
  cbv zeta. split; [reflexivity|]. split; [reflexivity|]. split.
  - apply Hload. reflexivity.
  - apply (Happended second_record). reflexivity.
Defined.

Lemma load_metadata_well_formed_witness :
  let st := logged_in "screenshots" [] (Some (Document (JArr two_records_file))) in
  Forall2 well_formed two_records_file [first_record; second_record] /\
  exists st',
    _load_metadata st = (Returns tt, st') /\
    metadata_list st' = [first_record; second_record] /\
    length (metadata_list st') = 2.
Proof.
  assert (Forall2 well_formed two_records_file [first_record; second_record]) as H.
  { repeat constructor; eexists; (split; [reflexivity|]); repeat split; reflexivity. }
  split; [exact H|].
  apply (load_metadata_well_formed
           (logged_in "screenshots" [] (Some (Document (JArr two_records_file))))
           two_records_file [first_record; second_record]); [reflexivity|exact H].
Defined.


(** C2 at a failing input: the screenshot directory is [/tmp/shots],
    the three fallback blocks are captured and only the screenshot of the
    second one fails. The cycle goes through all three blocks and returns,
    yet it appends no record for the first and the third block; under the
    relative directory [screenshots] the same cycle appends both. A block
    whose name begins with a slash loses its record in the same way. *)
Theorem absolute_directory_drops_records :
  let cycle dir blocks :=
    capture_block_screenshots svg_times_out blocks (logged_in dir [] None) in
  (cycle "/tmp/shots" fallback_blocks).1 = Returns tt /\
  screenshots (trace (cycle "/tmp/shots" fallback_blocks).2) =
    [("canvas", "/tmp/shots/Chart-Canvas_20240115_120007.png");
     ("svg", "/tmp/shots/Chart-SVG_20240115_120007.png");
     (".dashboard, .chart-container, .graph-container",
      "/tmp/shots/Dashboard-Main_20240115_120007.png")] /\
  metadata_list (cycle "/tmp/shots" fallback_blocks).2 = [] /\
  map block_name (metadata_list (cycle "screenshots" fallback_blocks).2) =
    ["Chart-Canvas"; "Dashboard-Main"] /\
  map block_name (metadata_list (cycle "screenshots" (slash_chart :: fallback_blocks)).2) =
    ["Chart-Canvas"; "Dashboard-Main"].
Proof. vm_compute. repeat split; reflexivity. Qed.



(** An interrupt while the agent looks for the blocks: the run ends with
    the interrupt, the browser is open, and neither the final save nor
    the close has happened. *)
Lemma interrupt_in_discovery_skips_cleanup :
  let run := run_monitoring_loop stopped_in_discovery 3 (fresh "screenshots") in
  run.1 = Some (Raises KeyboardInterrupt) /\
  browser_session run.2 = Some {| headless := false |} /\
  trace run.2 =
    [Print (MsgStartBanner "https://example.com/dashboard" 300 "screenshots"
              "screenshot_metadata.json");
     Print (MsgLoginBanner "https://example.com/dashboard");
     OpenBrowser {| headless := false |};
     Goto "https://example.com/dashboard";
     Print MsgWaitingForLogin; Sleep 5; Input; Print MsgLoginConfirmed;
     Print MsgIdentifying; AgentRun].
Proof. cbv zeta. split; [by vm_compute|]. split; by vm_compute. Qed.

(** An agent that reports a block and then fails: the reported block is
    returned, not the fallback list. *)
Lemma report_before_error_is_kept :
  let st := logged_in "screenshots" [] None in
  agent_run reports_then_fails (ticks st) =
    ([[sales_chart]], Raises (Exception "RuntimeError")) /\
  (identify_chart_blocks reports_then_fails st).1 = Returns [sales_chart] /\
  (identify_chart_blocks reports_then_fails st).1 <> Returns fallback_blocks.
Proof.
  cbv zeta. split; [reflexivity|]. split; [reflexivity|].
  intros H. vm_compute in H. discriminate H.
Qed.

Lemma identify_chart_blocks_fallback_witness :
  let st := logged_in "screenshots" [] None in
  browser_session st = Some {| headless := false |} /\
  agent_run agent_fails (ticks st) = ([], Raises (Exception "RuntimeError")) /\
  last_report [] = [] /\
  (forall e, Raises (Exception "RuntimeError") = @Raises unit e ->
             is_Exception e = true) /\
  (identify_chart_blocks agent_fails st).1 =
    Returns [ {| name := "Chart-Canvas"; selector := "canvas" |};
              {| name := "Chart-SVG"; selector := "svg" |};
              {| name := "Dashboard-Main";
                 selector := ".dashboard, .chart-container, .graph-container" |} ].
Proof.
  assert (forall e, Raises (Exception "RuntimeError") = @Raises unit e ->
                    is_Exception e = true) as He
    by (intros e [= <-]; reflexivity).
  split; [reflexivity|]. split; [reflexivity|]. split; [reflexivity|].
  split; [exact He|].
  exact (identify_chart_blocks_fallback agent_fails (logged_in "screenshots" [] None)
           {| headless := false |} [] (Raises (Exception "RuntimeError"))
           eq_refl eq_refl eq_refl He).
Defined.

Lemma cycle_filenames_witness :
  let st := logged_in "screenshots" [] None in
  browser_session st = Some {| headless := false |} /\
  stamp_shape "20240115_120007" = true /\
  exists done,
    done `prefix_of` fallback_blocks /\
    ((capture_block_screenshots calm fallback_blocks st).1 = Returns tt ->
     done = fallback_blocks) /\
    screenshots (trace (capture_block_screenshots calm fallback_blocks st).2) =
      map (fun b => (selector b,
                     Path.str (Path.truediv (screenshot_dir st)
                                 (name b +:+ "_" +:+ "20240115_120007" +:+ ".png"))))
          done.
Proof.
  split; [reflexivity|].
  destruct (cycle_filenames calm fallback_blocks (logged_in "screenshots" [] None)
              {| headless := false |} eq_refl) as (Hshape & Hdone & _).
  split; [exact Hshape|]. exact Hdone.
Defined.

Lemma metadata_list_only_grows_witness :
  let st := logged_in "screenshots" [first_record] None in
  file_write calm (ticks st) = WriteOk /\
  [first_record] `prefix_of` metadata_list (run_monitoring_loop calm 2 st).2 /\
  disk (_save_metadata calm st).2 = Some (Document (JArr [model_dump first_record])).
Proof.
  pose proof (metadata_list_only_grows calm)
    as (_ & _ & _ & _ & _ & _ & Hrun & _ & Hsave).
  split; [reflexivity|]. split.
  - apply (Hrun 2 (logged_in "screenshots" [first_record] None)).
  - apply (Hsave (logged_in "screenshots" [first_record] None)). reflexivity.
Defined.

Lemma identify_chart_blocks_nonempty_witness :
  let st := logged_in "screenshots" [] None in
  browser_session st = Some {| headless := false |} /\
  (exists blocks,
     (identify_chart_blocks agent_fails st).1 = Returns blocks /\ blocks <> []) /\
  Print MsgNoBlocksExit ∉ trace (run_monitoring_loop agent_fails 2 (fresh "screenshots")).2.
Proof.
  pose proof (identify_chart_blocks_nonempty agent_fails) as (_ & Hreturns & Hquiet).
  split; [reflexivity|]. split.
  - apply (Hreturns (logged_in "screenshots" [] None) {| headless := false |} eq_refl).
    intros e [= <-]. reflexivity.
  - apply (Hquiet 2 (fresh "screenshots")). apply not_elem_of_nil.
Defined.

(** An interrupt during the state query: [_get_current_url] raises. *)
Lemma interrupt_in_state_query_propagates :
  let st := logged_in "screenshots" [] None in
  browser_session st = Some {| headless := false |} /\
  browser_get_state stopped_in_state_query (ticks st) = Raises KeyboardInterrupt /\
  (_get_current_url stopped_in_state_query st).1 = Raises KeyboardInterrupt /\
  (_get_current_url stopped_in_state_query st).1 <> Returns (target_url st).
Proof.
  cbv zeta. split; [reflexivity|]. split; [reflexivity|]. split; [reflexivity|].
  intros H. vm_compute in H. discriminate H.
Qed.

Lemma get_current_url_cases_witness :
  let st := logged_in "screenshots" [] None in
  browser_session st = Some {| headless := false |} /\
  browser_get_state calm (ticks st) = Returns live_url /\
  (_get_current_url calm st).1 = Returns live_url /\
  (_get_current_url calm (fresh "screenshots")).1 = Returns "https://example.com/dashboard".
Proof.
  pose proof (get_current_url_cases calm (logged_in "screenshots" [] None))
    as (_ & Hreported & _).
  pose proof (get_current_url_cases calm (fresh "screenshots")) as (Habsent & _).
  split; [reflexivity|]. split; [reflexivity|]. split.
  - apply (Hreported {| headless := false |} live_url); reflexivity.
  - apply Habsent. reflexivity.
Defined.

(** * Further properties of the code *)

(** ** Construction and loading *)


Lemma comprehension_of_strings (l : list string) records :
  comprehension (map JStr l) = Returns records -> l = [] /\ records = [].
Proof. destruct l; simpl; [by intros [= <-]|done]. Qed.

(** X2: loading is all or nothing. After [_load_metadata] on an existing
    file the list is empty, or else the file is a JSON array all of whose
    items are well-formed and the list is exactly their records in order:
    one bad item discards the good ones too. The file is not touched. *)
Theorem load_metadata_all_or_nothing st content :
  disk st = Some content ->
  disk (_load_metadata st).2 = Some content /\
  (metadata_list (_load_metadata st).2 = [] \/
   exists items,
     content = Document (JArr items) /\
     Forall2 well_formed items (metadata_list (_load_metadata st).2)).
Proof.
  intros Hd. destruct (load_records content) as [records|e] eqn:Hl.
  - rewrite (load_metadata_loaded _ _ _ Hd Hl). simpl. split; [done|].
    destruct content as [cls|data]; [done|]. simpl in Hl.
    destruct data; simpl in Hl; try done.
    + destruct (list_ascii_of_string s); simpl in Hl; [|done].
      injection Hl as <-. by left.
    + right. exists items. split; [done|]. by apply comprehension_Returns.
    + apply comprehension_of_strings in Hl as [_ ->]. by left.
  - rewrite (load_metadata_failed _ _ _ Hd Hl). simpl. split; [done|]. by left.
Qed.

Lemma load_metadata_all_or_nothing_witness :
  let st := logged_in "screenshots" [first_record]
              (Some (Document (JArr bad_record_file))) in
  disk st = Some (Document (JArr bad_record_file)) /\
  disk (_load_metadata st).2 = Some (Document (JArr bad_record_file)) /\
  (metadata_list (_load_metadata st).2 = [] \/
   exists items,
     Document (JArr bad_record_file) = Document (JArr items) /\
     Forall2 well_formed items (metadata_list (_load_metadata st).2)).
Proof.
  split; [reflexivity|].
  apply (load_metadata_all_or_nothing
           (logged_in "screenshots" [first_record]
              (Some (Document (JArr bad_record_file))))).
  reflexivity.
Defined.

Lemma str_field_agree k members members' :
  dict_get k members = dict_get k members' ->
  str_field k members = str_field k members'.
Proof. unfold str_field. by intros ->. Qed.

(** X3: what the constructor of [ScreenshotMetadata] looks at. Two
    objects that give the same value to each of the four fields validate
    alike, whatever other keys they hold and in whatever order; an object
    in which one of the four fields is missing or is no string is refused
    with a validation error; anything that is no object is refused with a
    type error; and different records never dump to the same object. *)
Theorem record_validation_reads_four_fields :
  (forall members members',
     (forall k, k ∈ model_fields -> dict_get k members = dict_get k members') ->
     ScreenshotMetadata_init (JObj members) = ScreenshotMetadata_init (JObj members')) /\
  (forall members k,
     k ∈ model_fields ->
     (forall s, dict_get k members <> Some (JStr s)) ->
     ScreenshotMetadata_init (JObj members) = Raises (Exception "ValidationError")) /\
  (forall item,
     (forall members, item <> JObj members) ->
     ScreenshotMetadata_init item = Raises (Exception "TypeError")) /\
  (forall m m', model_dump m = model_dump m' -> m = m').
Proof.
  split; [|split; [|split]].
  - intros members members' H. simpl.
    rewrite (str_field_agree "timestamp" members members') by (apply H; in_list).
    rewrite (str_field_agree "block_name" members members') by (apply H; in_list).
    rewrite (str_field_agree "screenshot_path" members members') by (apply H; in_list).
    rewrite (str_field_agree "url" members members') by (apply H; in_list).
    done.
  - intros members k Hk Hbad.
    assert (str_field k members = None) as Hnone.
    { unfold str_field. destruct (dict_get k members) as [[]|] eqn:E; try done.
      by destruct (Hbad s). }
    simpl. unfold model_fields in Hk.
    repeat (apply elem_of_cons in Hk as [->|Hk]);
      [..|by apply elem_of_nil in Hk]; rewrite Hnone;
      repeat match goal with
             | |- context [match str_field ?f members with _ => _ end] =>
                 destruct (str_field f members)
             end; done.
  - intros item H. destruct item; try done. by destruct (H members).
  - intros [] [] [= -> -> -> ->]. done.
Qed.

Lemma record_validation_reads_four_fields_witness :
  ScreenshotMetadata_init
    (JObj [("url", JStr live_url); ("note", JNull);
           ("screenshot_path", JStr "screenshots/Sales Chart_20240115_120510.png");
           ("block_name", JStr "Sales Chart");
           ("timestamp", JStr "2024-01-15T12:05:10")])
    = ScreenshotMetadata_init (model_dump second_record) /\
  ScreenshotMetadata_init
    (JObj [("timestamp", JInt 1705320307); ("block_name", JStr "Sales Chart");
           ("screenshot_path", JStr "x.png"); ("url", JStr live_url)])
    = Raises (Exception "ValidationError").
Proof.
  pose proof record_validation_reads_four_fields as (Hsame & Hbad & _).
  split.
  - apply Hsame. intros k Hk. unfold model_fields in Hk.
    repeat (apply elem_of_cons in Hk as [->|Hk]); try reflexivity.
    by apply elem_of_nil in Hk.
  - apply (Hbad _ "timestamp"); [in_list|]. intros s. simpl. discriminate.
Defined.

(** ** Saving *)



(** ** A cycle, written out *)

Lemma capture_unfold env blocks st s :
  browser_session st = Some s ->
  capture_block_screenshots env blocks st =
    match _get_current_url env (clock_read_twice st) with
    | (Raises e, st3) => (Raises e, st3)
    | (Returns current_url, st3) =>
        match for_each blocks
                (capture_block env (isoformat (clock env (ticks st)))
                   (strftime (clock env (S (ticks st)))) current_url)
                (printed (MsgCapturing (isoformat (clock env (ticks st)))) st3) with
        | (Raises e, st4) => (Raises e, st4)
        | (Returns _, st4) =>
            (Returns tt,
             printed (MsgCycleCompleted (length (metadata_list (_save_metadata env st4).2)))
               (_save_metadata env st4).2)
        end
    end.
Proof.
  intros Hs. unfold capture_block_screenshots, bind, get, now. simpl. rewrite Hs.
  simpl. fold (clock_read_twice st).
  destruct (_get_current_url env (clock_read_twice st)) as [[u|e] st3]; [|done].
  unfold print at 1, modify at 1. simpl.
  destruct (for_each blocks _ _) as [[[]|e] st4]; [|done].
  destruct (save_metadata_always env st4) as (st5 & m & Hsave & _).
  rewrite Hsave. reflexivity.
Qed.

Lemma get_current_url_value env st s current_url :
  browser_session st = Some s ->
  (_get_current_url env st).1 = Returns current_url ->
  current_url = match browser_get_state env (ticks st) with
                | Returns reported => reported
                | Raises _ => target_url st
                end.
Proof.
  intros Hs. unfold _get_current_url, bind, get, try_except, call, ret. rewrite Hs.
  destruct (browser_get_state env (ticks st)) as [u|e]; simpl.
  - by intros [= <-].
  - destruct (is_Exception e); simpl; [by intros [= <-]|done].
Qed.

(** X5: every record a cycle appends carries the ISO form of the first
    clock reading of the cycle and the URL the browser reported at its
    start (the target URL when that query failed), bears the name of one
    of the blocks, and points to a file that was requested from the browser
    in this very cycle, for the selector of that block. *)
Theorem cycle_records_point_to_requests env blocks st s :
  browser_session st = Some s ->
  exists new,
    metadata_list (capture_block_screenshots env blocks st).2 = metadata_list st ++ new /\
    Forall (fun m =>
              timestamp m = isoformat (clock env (ticks st)) /\
              url m = cycle_url env st /\
              exists b, b ∈ blocks /\ block_name m = name b /\
                (selector b, screenshot_path m) ∈
                  screenshots (trace (capture_block_screenshots env blocks st).2))
           new.
Proof.
  intros Hs. rewrite (capture_unfold env blocks st s Hs).
  pose proof (get_current_url_state env (clock_read_twice st) s Hs) as Hst3.
  pose proof (get_current_url_value env (clock_read_twice st) s) as Hurl.
  destruct (_get_current_url env (clock_read_twice st)) as [[u|e] st3];
    simpl in Hst3; subst st3.
  2: { exists []. simpl. by rewrite app_nil_r. }
  specialize (Hurl u Hs eq_refl). simpl in Hurl. fold (cycle_url env st) in Hurl.
  subst u.
  match goal with
  | |- context [for_each blocks ?body ?x] =>
      destruct (capture_loop env (isoformat (clock env (ticks st)))
                  (strftime (clock env (S (ticks st)))) (cycle_url env st) blocks x s Hs)
        as (r & st4 & done & new & Hrun & Hs4 & Hd4 & Hp & Hr & Hsh & Hl & Hsub)
  end.
  rewrite Hrun. simpl in Hl, Hsh, Hsub.
  assert (Forall (fun m =>
            timestamp m = isoformat (clock env (ticks st)) /\
            url m = cycle_url env st /\
            exists b, b ∈ blocks /\ block_name m = name b /\
              (selector b, screenshot_path m) ∈ screenshots (trace st4)) new) as Hnew.
  { apply Forall_forall. intros m Hm.
    apply (sublist_subseteq _ _ Hsub) in Hm.
    apply list_elem_of_fmap in Hm as (b & -> & Hb).
    split; [done|]. split; [done|]. exists b. split.
    - destruct Hp as [rest ->]. apply elem_of_app. by left.
    - split; [done|]. rewrite Hsh. apply elem_of_app. right.
      apply list_elem_of_fmap. by exists b. }
  exists new. destruct r as [[]|e].
  - destruct (save_metadata_always env st4)
      as (st5 & msg & Hsave & Hl5 & _ & _ & _ & _ & _ & Htr5).
    rewrite Hsave. simpl. rewrite Hl5. split; [done|].
    eapply Forall_impl; [exact Hnew|]. intros m (Ht & Hu & b & Hb & Hn & Hin).
    split; [done|]. split; [done|]. exists b. split; [done|]. split; [done|].
    rewrite Htr5, !screenshots_app. apply elem_of_app. left. apply elem_of_app. by left.
  - simpl. by split.
Qed.

Lemma cycle_records_point_to_requests_witness :
  let st := logged_in "screenshots" [] None in
  browser_session st = Some {| headless := false |} /\
  exists new,
    metadata_list (capture_block_screenshots svg_times_out fallback_blocks st).2 = new /\
    Forall (fun m =>
              timestamp m = "2024-01-15T12:00:07" /\
              url m = live_url /\
              exists b, b ∈ fallback_blocks /\ block_name m = name b /\
                (selector b, screenshot_path m) ∈
                  screenshots
                    (trace (capture_block_screenshots svg_times_out fallback_blocks st).2))
           new.
Proof.
  split; [reflexivity|].
  exact (cycle_records_point_to_requests svg_times_out fallback_blocks
           (logged_in "screenshots" [] None) {| headless := false |} eq_refl).
Defined.

(** X6: a cycle that comes to its end with a disk that takes the write
    leaves on disk exactly the list it leaves in memory. *)
Theorem completed_cycle_leaves_file_current env blocks st st' :
  (forall t, file_write env t = WriteOk) ->
  capture_block_screenshots env blocks st = (Returns tt, st') ->
  disk st' = Some (Document (JArr (map model_dump (metadata_list st')))).
Proof.
  intros Hdisk Hrun. destruct (browser_session st) as [s|] eqn:Hs.
  - rewrite (capture_unfold env blocks st s Hs) in Hrun.
    destruct (_get_current_url env (clock_read_twice st)) as [[u|e] st3]; [|done].
    destruct (for_each blocks _ _) as [[[]|e] st4]; [|done].
    rewrite (save_metadata_ok env st4 (Hdisk _)) in Hrun.
    by injection Hrun as <-.
  - unfold capture_block_screenshots, bind, get in Hrun. simpl in Hrun.
    by rewrite Hs in Hrun.
Qed.

Lemma completed_cycle_leaves_file_current_witness :
  let run := capture_block_screenshots svg_times_out fallback_blocks
               (logged_in "screenshots" [first_record] None) in
  (forall t, file_write svg_times_out t = WriteOk) /\
  run = (Returns tt, run.2) /\
  disk run.2 = Some (Document (JArr (map model_dump (metadata_list run.2)))).
Proof.
  assert (forall t, file_write svg_times_out t = WriteOk) as Hdisk by reflexivity.
  assert (capture_block_screenshots svg_times_out fallback_blocks
            (logged_in "screenshots" [first_record] None) =
          (Returns tt,
           (capture_block_screenshots svg_times_out fallback_blocks
              (logged_in "screenshots" [first_record] None)).2)) as Hrun
    by (vm_compute; reflexivity).
  split; [exact Hdisk|]. split; [exact Hrun|].
  exact (completed_cycle_leaves_file_current svg_times_out fallback_blocks _ _ Hdisk Hrun).
Defined.

(** ** The end of a run *)

(** A run that ended after entering the loop went through the [finally]
    clause, from a state with a session. *)
Lemma run_exit_finally env fuel st r st' :
  run_monitoring_loop env fuel st = (Some r, st') ->
  Print (MsgCycleHeader 1) ∉ trace st ->
  Print (MsgCycleHeader 1) ∈ trace st' ->
  exists st3 s,
    browser_session st3 = Some s /\
    (finally_clause env st3).2 = st'.
Proof.
  intros Hrun Hfresh Hentered.
  set (P := fun ev => ev <> Print (MsgCycleHeader 1)).
  assert (forall ev, ordinary ev = true -> P ev) as HP by (by intros ev Hev ->).
  assert (~ P (Print (MsgCycleHeader 1))) as HnP by (by intros H).
  unfold run_monitoring_loop in Hrun.
  destruct (banner_overflows (interval_seconds st)).
  { inversion Hrun; subst. exfalso.
    eapply evolves_not_in; [|exact HnP|exact Hfresh|exact Hentered].
    by apply evolves_emitted, HP. }
  set (st0 := announced st) in Hrun.
  assert (evolves P st st0) as H0 by (by apply evolves_emitted, HP).
  pose proof (steady_wait_for_login env P HP st0) as H1.
  destruct (wait_for_login env st0) as [[b|e] st1] eqn:Hlogin; simpl in H1.
  2: { inversion Hrun; subst. exfalso.
       eapply evolves_not_in; [|exact HnP|exact Hfresh|exact Hentered].
       by eapply evolves_trans. }
  destruct (wait_for_login_true _ _ _ _ Hlogin) as [-> Hs].
  pose proof (steady_identify env P HP st1) as H2.
  destruct (identify_chart_blocks env st1) as [[blocks|e] st2] eqn:Hid; simpl in H2.
  2: { inversion Hrun; subst. exfalso.
       eapply evolves_not_in; [|exact HnP|exact Hfresh|exact Hentered].
       eapply evolves_trans; [exact H0|]. by eapply evolves_trans. }
  destruct blocks as [|b blocks]; [by destruct (identify_never_empty _ _ _ _ Hid)|].
  pose proof (evolves_monitoring_cycles env (fun _ => True) (fun _ _ => I) (fun _ => I)
                fuel (b :: blocks) 1 st2) as H3.
  pose proof (steady_identify env (fun _ => True) (fun _ _ => I) st1) as H2'.
  rewrite Hid in H2'. simpl in H2'.
  destruct (monitoring_cycles env fuel (b :: blocks) 1 st2) as [[e|] st3];
    simpl in H3; [|done].
  assert (is_Some (browser_session st3)) as [s Hs3] by apply H3, H2', Hs.
  unfold bind in Hrun.
  destruct (loop_handlers_run e st3) as (st3' & Hh & _ & Hb & _).
  rewrite Hh in Hrun. rewrite <- Hb in Hs3.
  exists st3', s. split; [done|].
  destruct (finally_clause env st3') as [[[]|e'] st4]; by inversion Hrun.
Qed.



(** ** What does not stop the loop *)

Section Survives.

Variable env : Env.
Hypothesis goto_returns : forall t target, browser_goto env t target = Returns tt.
Hypothesis sleep_returns : forall t seconds, asyncio_sleep env t seconds = Returns tt.
Hypothesis state_fails_softly :
  forall t e, browser_get_state env t = Raises e -> is_Exception e = true.
Hypothesis screenshot_fails_softly :
  forall t sel file e,
    browser_screenshot_element env t sel file = Raises e -> is_Exception e = true.

Lemma capture_block_survives timestamp_iso timestamp_safe current_url b st s :
  browser_session st = Some s ->
  exists st',
    capture_block env timestamp_iso timestamp_safe current_url b st = (Returns tt, st') /\
    browser_session st' = Some s.
Proof.
  intros Hs. rewrite (capture_block_unfold _ _ _ _ _ _ _ Hs).
  destruct (browser_screenshot_element env _ _ _) as [[]|e] eqn:Ho.
  - destruct (Path.is_absolute _); by eexists.
  - rewrite (screenshot_fails_softly _ _ _ _ Ho). by eexists.
Qed.

Lemma capture_loop_survives timestamp_iso timestamp_safe current_url blocks st s :
  browser_session st = Some s ->
  exists st',
    for_each blocks (capture_block env timestamp_iso timestamp_safe current_url) st
      = (Returns tt, st') /\
    browser_session st' = Some s.
Proof.
  revert st. induction blocks as [|b blocks IH]; intros st Hs; simpl.
  - by exists st.
  - destruct (capture_block_survives timestamp_iso timestamp_safe current_url b st s Hs)
      as (st1 & Hrun & Hs1).
    unfold bind. rewrite Hrun. by apply IH.
Qed.

Lemma capture_survives blocks st s :
  browser_session st = Some s ->
  exists st',
    capture_block_screenshots env blocks st = (Returns tt, st') /\
    browser_session st' = Some s.
Proof.
  intros Hs. rewrite (capture_unfold env blocks st s Hs).
  pose proof (get_current_url_state env (clock_read_twice st) s Hs) as Hst3.
  destruct (get_current_url_returns env (clock_read_twice st)
              (state_fails_softly _)) as [u Hu].
  destruct (_get_current_url env (clock_read_twice st)) as [r st3].
  simpl in Hst3, Hu. subst r st3.
  match goal with
  | |- context [for_each blocks ?body ?x] =>
      destruct (capture_loop_survives (isoformat (clock env (ticks st)))
                  (strftime (clock env (S (ticks st)))) u blocks x s Hs)
        as (st4 & Hrun & Hs4)
  end.
  rewrite Hrun. eexists. split; [reflexivity|]. simpl.
  destruct (save_metadata_always env st4) as (st5 & m & Hsave & _ & Hb & _).
  rewrite Hsave. simpl. by rewrite Hb.
Qed.

Lemma cycle_body_survives blocks cycle st s :
  browser_session st = Some s ->
  exists st',
    cycle_body env blocks cycle st = (Returns tt, st') /\
    browser_session st' = Some s.
Proof.
  intros Hs. unfold cycle_body, on_session, bind, get, print, modify, call.
  simpl. rewrite Hs, goto_returns, sleep_returns.
  match goal with
  | |- context [capture_block_screenshots env blocks ?x] =>
      destruct (capture_survives blocks x s Hs) as (st1 & Hrun & Hs1)
  end.
  rewrite Hrun, sleep_returns. eexists. split; [reflexivity|]. done.
Qed.

Lemma monitoring_cycles_survive fuel blocks cycle st s :
  browser_session st = Some s ->
  (monitoring_cycles env fuel blocks cycle st).1 = None.
Proof.
  revert cycle st. induction fuel as [|fuel IH]; intros cycle st Hs; simpl; [done|].
  destruct (cycle_body_survives blocks cycle st s Hs) as (st1 & Hrun & Hs1).
  rewrite Hrun. by apply IH.
Qed.

End Survives.



(** ** Login and discovery *)

(** X9: [wait_for_login] never reports a failed login: when it returns
    it returns [True], so no run prints the "login failed" message; and
    however it ends, by an error of the navigation or an interrupt as
    well, it leaves a new visible browser session in the monitor. *)
Theorem login_never_reports_failure env :
  (forall st b, (wait_for_login env st).1 = Returns b -> b = true) /\
  (forall st, browser_session (wait_for_login env st).2 = Some {| headless := false |}) /\
  (forall fuel st,
     Print MsgLoginFailed ∉ trace st ->
     Print MsgLoginFailed ∉ trace (run_monitoring_loop env fuel st).2).
Proof.
  split; [|split].
  - intros st b H. destruct (wait_for_login env st) as [r st'] eqn:Hrun.
    simpl in H. subst r. by destruct (wait_for_login_true _ _ _ _ Hrun).
  - intros st.
    unfold wait_for_login, bind, print, modify, get, on_session, call,
      printed, emitted, called. simpl.
    destruct (browser_goto env _ _) as [[]|]; [|done].
    destruct (asyncio_sleep env _ _) as [[]|]; [|done].
    by destruct (console_input env _).
  - intros fuel st. apply evolves_not_in with (P := fun ev => ev <> Print MsgLoginFailed).
    + apply evolves_run; [by intros ev Hev ->|done].
    + by intros H.
Qed.

Lemma login_never_reports_failure_witness :
  browser_session (wait_for_login stopped_at_login (fresh "screenshots")).2
    = Some {| headless := false |} /\
  (Print MsgLoginFailed ∉
     trace (run_monitoring_loop stopped_at_login 2 (fresh "screenshots")).2).
Proof.
  pose proof (login_never_reports_failure stopped_at_login) as (_ & Hsession & Hquiet).
  split; [apply Hsession|]. apply Hquiet. apply not_elem_of_nil.
Defined.

Lemma last_report_snoc earlier final : last_report (earlier ++ [final]) = final.
Proof. unfold last_report. by rewrite fold_left_app. Qed.

(** X10: of several reports of the agent only the last one counts. With
    a session open and a run that returns or raises an [Exception], the
    blocks returned are those of the last [report_blocks] call, and the
    fallback blocks when that last report is empty, whatever was reported
    before. *)
Theorem last_report_wins env st s earlier final ended :
  browser_session st = Some s ->
  agent_run env (ticks st) = (earlier ++ [final], ended) ->
  (forall e, ended = Raises e -> is_Exception e = true) ->
  (identify_chart_blocks env st).1 =
    Returns (match final with
             | [] => fallback_blocks
             | _ :: _ => final
             end).
Proof.
  intros Hs Ha He. rewrite (identify_with_session _ _ _ Hs), Ha. simpl.
  rewrite last_report_snoc. destruct ended as [[]|e]; [done|].
  by rewrite (He e eq_refl).
Qed.

Lemma last_report_wins_witness :
  let st := logged_in "screenshots" [] None in
  browser_session st = Some {| headless := false |} /\
  agent_run reports_then_retracts (ticks st) = ([[sales_chart]] ++ [[]], Returns tt) /\
  (identify_chart_blocks reports_then_retracts st).1 = Returns fallback_blocks.
Proof.
  split; [reflexivity|]. split; [reflexivity|].
  apply (last_report_wins reports_then_retracts (logged_in "screenshots" [] None)
           {| headless := false |} [[sales_chart]] [] (Returns tt));
    [reflexivity|reflexivity|discriminate].
Defined.

(** ** Starting again on an existing file *)

Lemma init_loads env target dir file interval content records :
  load_records content = Returns records ->
  forall st,
    __init__ env target dir file interval (Some content) = Returns st ->
    metadata_list st = records /\ disk st = Some content.
Proof.
  intros Hl st. unfold __init__, bind, call. simpl.
  destruct (mkdir env 0) as [[]|e]; [|done].
  erewrite load_metadata_loaded; [|reflexivity|exact Hl].
  by intros [= <-].
Qed.

Lemma init_discards env target dir file interval content e :
  load_records content = Raises e ->
  forall st,
    __init__ env target dir file interval (Some content) = Returns st ->
    metadata_list st = [] /\ disk st = Some content /\ ticks st = 1.
Proof.
  intros Hl st. unfold __init__, bind, call. simpl.
  destruct (mkdir env 0) as [[]|e']; [|done].
  erewrite load_metadata_failed; [|reflexivity|exact Hl].
  by intros [= <-].
Qed.

(** X11: what a restart does to the metadata file. [main] launches no
    browser when the monitor cannot be built. On a file of well-formed
    records, the records of the file are the beginning of the list the
    run ends with, so that they are written back by every save. On a file
    with an item that is no record, the monitor starts from the empty
    list with the file still in place, and its first save that goes
    through replaces the whole file, good items included. *)
Theorem restart_on_existing_file env args :
  (forall e disk0 fuel,
     mkdir env 0 = Raises e ->
     main env args disk0 fuel = (Some (Raises e), None)) /\
  (forall items old fuel r st,
     Forall2 well_formed items old ->
     main env args (Some (Document (JArr items))) fuel = (r, Some st) ->
     old `prefix_of` metadata_list st) /\
  (forall items st,
     Exists (fun item => forall m, ~ well_formed item m) items ->
     __init__ env (arg_url args) (arg_screenshot_dir args) (arg_metadata_file args)
       (arg_interval args) (Some (Document (JArr items))) = Returns st ->
     metadata_list st = [] /\
     disk st = Some (Document (JArr items)) /\
     (file_write env (ticks st) = WriteOk ->
      disk (_save_metadata env st).2 = Some (Document (JArr [])))).
Proof.
  split; [|split].
  - intros e disk0 fuel He. unfold main, __init__, bind, call. simpl. by rewrite He.
  - intros items old fuel r st Hwf. unfold main.
    destruct (__init__ env _ _ _ _ _) as [monitor|e] eqn:Hinit; [|done].
    intros [= _ <-].
    apply comprehension_Returns in Hwf.
    destruct (init_loads env _ _ _ _ (Document (JArr items)) old Hwf monitor Hinit)
      as [<- _].
    by apply (evolves_run env (fun _ => True)).
  - intros items st Hbad Hinit.
    destruct (comprehension items) as [records|e] eqn:Hl.
    + apply comprehension_Returns in Hl. exfalso. clear Hinit.
      induction Hl as [|item m items l Hm Hl IH]; inversion Hbad; subst; naive_solver.
    + destruct (init_discards env _ _ _ _ (Document (JArr items)) e Hl st Hinit)
        as (Hlist & Hdisk & Hticks).
      split; [done|]. split; [done|]. intros Hw.
      rewrite save_metadata_ok by done.
      simpl. unfold dumped. by rewrite Hlist.
Qed.

Lemma restart_on_existing_file_witness :
  let run := main calm (default_args "https://example.com/dashboard")
               (Some (Document (JArr two_records_file))) 2 in
  Forall2 well_formed two_records_file [first_record; second_record] /\
  (exists st, run.2 = Some st /\ [first_record; second_record] `prefix_of` metadata_list st) /\
  main no_directory (default_args "https://example.com/dashboard") None 2
    = (Some (Raises (Exception "PermissionError")), None).
Proof.
  pose proof (restart_on_existing_file calm (default_args "https://example.com/dashboard"))
    as (_ & Hkeeps & _).
  pose proof (restart_on_existing_file no_directory
                (default_args "https://example.com/dashboard")) as (Hnone & _).
  assert (Forall2 well_formed two_records_file [first_record; second_record]) as Hwf.
  { repeat constructor; eexists; (split; [reflexivity|]); repeat split; reflexivity. }
  split; [exact Hwf|]. split.
  - eexists. split; [reflexivity|].
    eapply (Hkeeps two_records_file [first_record; second_record] 2); [exact Hwf|].
    reflexivity.
  - apply Hnone. reflexivity.
Defined.

(** ** Sample cycles with one failing block *)

Lemma capture_cycle_one_failure_witness :
  let st := logged_in "screenshots" [first_record] None in
  let canvas := {| name := "Chart-Canvas"; selector := "canvas" |} in
  let svg := {| name := "Chart-SVG"; selector := "svg" |} in
  let board := {| name := "Dashboard-Main";
                  selector := ".dashboard, .chart-container, .graph-container" |} in
  Path.is_absolute (screenshot_dir st) = false /\
  browser_screenshot_element svg_times_out 4 "svg"
    "screenshots/Chart-SVG_20240115_120007.png" = Raises (Exception "TimeoutError") /\
  exists st' current_url,
    capture_block_screenshots svg_times_out ([canvas] ++ svg :: [board]) st
      = (Returns tt, st') /\
    metadata_list st' =
      [first_record] ++
      map (record_of "2024-01-15T12:00:07" "20240115_120007" current_url
             (screenshot_dir st)) [canvas; board].
Proof.
  split; [reflexivity|]. split; [reflexivity|].
  apply (capture_cycle_one_failure svg_times_out
           [ {| name := "Chart-Canvas"; selector := "canvas" |} ]
           {| name := "Chart-SVG"; selector := "svg" |}
           [ {| name := "Dashboard-Main";
                selector := ".dashboard, .chart-container, .graph-container" |} ]
           (logged_in "screenshots" [first_record] None)
           {| headless := false |} "TimeoutError").
  - reflexivity.
  - reflexivity.
  - repeat constructor.
  - intros e H. vm_compute in H. discriminate H.
  - intros [|i] b H; [|done]. by injection H as <-.
  - reflexivity.
  - intros [|i] b H; [|done]. by injection H as <-.
Defined.

Lemma capture_cycle_absolute_witness :
  let st := logged_in "/tmp/shots" [first_record] None in
  Path.is_absolute (screenshot_dir st) = true /\
  metadata_list (capture_block_screenshots calm fallback_blocks st).2 = [first_record].
Proof.
  split; [reflexivity|].
  apply (capture_cycle_absolute calm fallback_blocks
           (logged_in "/tmp/shots" [first_record] None)).
  reflexivity.
Defined.
